(** * scripts/import_gsm8k.py: the GSM8k test-set importer

    A shallow embedding of [main] and of the parts of its environment that
    it talks to: the parquet file behind [pd.read_parquet], the Redis
    server behind the [redis.Redis] client, the wall clock behind
    [datetime.utcnow] and standard output.

    Layout: Python values and truthiness; the data frame and its rows; the
    TestCase and TestSet dictionaries and the loop that builds them; the
    Redis keyspace; a state-and-exception monad for the script;
    [datetime.isoformat]; [main]; the vocabulary of the properties and
    sample inputs; the frame with stored index labels and missing cells;
    then the lemmas and theorems. *)

From Stdlib Require Import ZArith Ascii Floats.SpecFloat.
From stdpp Require Import base tactics option list strings pretty gmap.

Open Scope string_scope.
Open Scope Z_scope.
Open Scope list_scope.

(** ** Configuration constants (lines 8-13 of the script) *)

Definition PARQUET_FILE : string :=
  "/Users/klietus/Downloads/test-00000-of-00001.parquet".
Definition REDIS_HOST : string := "localhost".
Definition REDIS_PORT : Z := 6380.
Definition TEST_SET_ID : string := "GSM8k".
Definition TEST_SET_NAME : string := "GSM8k Benchmark".
Definition TEST_SET_DESC : string := "Grade School Math 8k Test Set".

(** ** Python values held by a cell of the frame

    A cell of a row is a Python scalar: [None], a [str], an [int], a
    [bool] or a [float]. Floats are IEEE-754 doubles in the Standard
    Library's specification form, so that NaN, the infinities and the two
    zeros are told apart. *)

Module Py.

Inductive value : Type :=
| None_
| Str (s : string)
| Int (n : Z)
| Bool (b : bool)
| Float (f : spec_float).


(** [bool(v)]: [None] is false, a string is true when it has a
    character, a number is true when it differs from zero. [nan != 0.0]
    holds, so NaN is true. *)
Definition truthy (v : value) : bool :=
  match v with
  | None_ => false
  | Str "" => false
  | Str (String _ _) => true
  | Int n => negb (n =? 0)
  | Bool b => b
  | Float (S754_zero _) => false
  | Float _ => true
  end.

(** [not v] *)
Definition not_ (v : value) : bool := negb (truthy v).

End Py.

(** ** The data frame of a file that stores no index

    For such a file [pd.read_parquet] returns a frame whose rows are
    labelled by a [RangeIndex]: the label of a row is its zero-based
    position. A row is the [Series] that [iterrows] hands out for it,
    from column names to cell values, here Python scalars. The frame in
    general, with the index labels that a file stores and with [pd.NA]
    cells, is [Labelled.DataFrame] further down; this one is its case
    [with_default_index]. *)

Abbreviation Series := (gmap string Py.value).

Record DataFrame : Type := mkDataFrame {
  columns : list string;
  rows : list Series
}.

(** [len(df)] *)
Definition len_df (df : DataFrame) : nat := length (rows df).

(** [row.get(key)]: the cell under [key], or the default [None] when the
    row has no such label. *)
Definition get (row : Series) (key : string) : Py.value :=
  default Py.None_ (row !! key).

(** [df.iterrows()]: the pairs (index label, row) in file order. *)
Definition iterrows (df : DataFrame) : list (Z * Series) :=
  imap (fun i row => (Z.of_nat i, row)) (rows df).

(** ** TestCase and TestSet dictionaries (lines 48-54 and 58-65) *)

Record TestCase : Type := mkTestCase {
  tc_id : string;
  tc_name : string;
  prompt : Py.value;
  expectedActivations : list Py.value;
  expectedResponse : Py.value
}.

Record TestSet : Type := mkTestSet {
  ts_id : string;
  ts_name : string;
  description : string;
  tests : list TestCase;
  createdAt : string;
  updatedAt : string
}.

(** The dictionary literal of lines 48-54; [f"{index}"] is the decimal
    numeral of the label. *)
Definition test_case (index : Z) (question answer : Py.value) : TestCase :=
  {| tc_id := TEST_SET_ID +:+ "-T" +:+ pretty index;
     tc_name := "GSM8k #" +:+ pretty (index + 1);
     prompt := question;
     expectedActivations := [];
     expectedResponse := answer |}.

(** The guard of line 45, [not question or not answer]. *)
Definition skip_row (row : Series) : bool :=
  Py.not_ (get row "question") || Py.not_ (get row "answer").

(** The [for] loop of lines 40-55, with the list [tests] it appends to
    passed along. *)
Fixpoint transform_loop (it : list (Z * Series)) (tests : list TestCase)
  : list TestCase :=
  match it with
  | [] => tests
  | (index, row) :: it' =>
      let question := get row "question" in
      let answer := get row "answer" in
      if Py.not_ question || Py.not_ answer
      then transform_loop it' tests
      else transform_loop it' (tests ++ [test_case index question answer])
  end.

(** Lines 38-55: [tests = []] followed by the loop. *)
Definition build_tests (df : DataFrame) : list TestCase :=
  transform_loop (iterrows df) [].

(** ** The Redis server

    The keyspace maps a key to a typed value. The script stores a string
    and a set; [RList] stands for a key that holds some other type. *)

Inductive rvalue : Type :=
| RString (s : string)
| RSet (members : gset string)
| RList (items : list string).

Abbreviation keyspace := (gmap string rvalue).

(** What the client meets when it sends a command to the server at
    [REDIS_HOST:REDIS_PORT]. [Up]: the server serves the command.
    [Unreachable]: the client raises [redis.ConnectionError] or one of
    its subclasses, for want of a connection or on a reply such as
    NOAUTH or LOADING. [Refusing]: the server answers with an error
    reply that the client raises as a [redis.ResponseError], such as
    NOPERM for a user who may not run the command. *)
Inductive link : Type := Up | Unreachable | Refusing.

#[global] Instance link_eq_dec : EqDecision link.
Proof. solve_decision. Defined.

(** A command as it leaves the client. *)
Inductive command : Type :=
| PING
| SADD (key member : string)
| SET (key val : string).

(** ** Exceptions and standard output *)

Inductive exn : Type :=
| ParquetError (msg : string)        (* anything [pd.read_parquet] raises *)
| ConnectionError                    (* [redis.ConnectionError], subclasses included *)
| ResponseError (msg : string)       (* [redis.ResponseError] *)
| TypeError (msg : string).          (* [TypeError] *)

(** The lines [main] prints, with the values it interpolates. *)
Inductive line : Type :=
| Reading (path : string)
| ErrorReadingParquet (e : exn)
| LoadedRows (n : nat)
| Columns (cols : list string)
| ConnectedToRedis
| FailedToConnect
| SuccessfullyImported (n : nat) (set_id : string).

(** ** [datetime] *)

Record datetime : Type := mkDatetime {
  year : N; month : N; day : N;
  hour : N; minute : N; second : N; microsecond : N
}.

(** ** The world the script runs in *)

(** What lies at a path: a parquet file with its table, or bytes that
    are no parquet file. A path without an entry does not exist. *)
Inductive file : Type :=
| Parquet (df : DataFrame)
| Garbage.

Record world : Type := mkWorld {
  files : gmap string file;
  redis_link : link;
  db : keyspace;
  clock : nat -> datetime;   (* the successive readings of the UTC clock *)
  ticks : nat;               (* how many readings were taken *)
  stdout : list line;
  wire : list command        (* the commands sent, connection attempts included *)
}.

(** ** A state-and-exception monad for the script *)

Inductive outcome (A : Type) : Type :=
| Returned (a : A)
| Raised (e : exn).
Arguments Returned {A} a.
Arguments Raised {A} e.

Definition M (A : Type) : Type := world -> outcome A * world.

Definition ret {A} (a : A) : M A := fun w => (Returned a, w).

Definition raise {A} (e : exn) : M A := fun w => (Raised e, w).

Definition bind {A B} (m : M A) (k : A -> M B) : M B :=
  fun w =>
    match m w with
    | (Returned a, w') => k a w'
    | (Raised e, w') => (Raised e, w')
    end.

(** [try: m  except Exception as e: ...]: the exception becomes a value. *)
Definition try_ {A} (m : M A) : M (exn + A) :=
  fun w =>
    match m w with
    | (Returned a, w') => (Returned (inr a), w')
    | (Raised e, w') => (Returned (inl e), w')
    end.

Declare Scope py_scope.
Delimit Scope py_scope with py.
Notation "x <- m ;; k" := (bind m (fun x => k))
  (at level 100, m at next level, right associativity) : py_scope.
Notation "m ;; k" := (bind m (fun _ => k))
  (at level 100, right associativity) : py_scope.

(** [print(l)] *)
Definition print (l : line) : M unit := fun w =>
  (Returned tt,
   {| files := files w; redis_link := redis_link w; db := db w;
      clock := clock w; ticks := ticks w;
      stdout := stdout w ++ [l]; wire := wire w |}).

(** [pd.read_parquet(path)] *)
Definition read_parquet (path : string) : M DataFrame := fun w =>
  match files w !! path with
  | Some (Parquet df) => (Returned df, w)
  | Some Garbage => (Raised (ParquetError "not a parquet file"), w)
  | None => (Raised (ParquetError "no such file"), w)
  end.

(** [datetime.utcnow()] *)
Definition utcnow : M datetime := fun w =>
  (Returned (clock w (ticks w)),
   {| files := files w; redis_link := redis_link w; db := db w;
      clock := clock w; ticks := S (ticks w);
      stdout := stdout w; wire := wire w |}).

(** The client of line 29. Building it opens no connection; the first
    command does. *)
Record Redis : Type := mkRedis { host : string; port : Z }.

(** The server's part in a command: the reply value and the new keyspace,
    or an error reply. [SADD] on a key of another type is refused; [SET]
    replaces whatever the key held. *)
Definition serve (c : command) (d : keyspace) : string + (Z * keyspace) :=
  match c with
  | PING => inr (1, d)
  | SADD key member =>
      match d !! key with
      | None => inr (1, <[key := RSet {[ member ]}]> d)
      | Some (RSet s) =>
          inr (if decide (member ∈ s) then 0 else 1,
               <[key := RSet (s ∪ {[ member ]})]> d)
      | Some _ => inl "WRONGTYPE"
      end
  | SET key val => inr (1, <[key := RString val]> d)
  end.

(** Sending a command through the client. *)
Definition execute_command (r : Redis) (c : command) : M Z := fun w =>
  let sent := wire w ++ [c] in
  let w_sent d :=
    {| files := files w; redis_link := redis_link w; db := d;
       clock := clock w; ticks := ticks w;
       stdout := stdout w; wire := sent |} in
  match redis_link w with
  | Unreachable => (Raised ConnectionError, w_sent (db w))
  | Refusing => (Raised (ResponseError "NOPERM"), w_sent (db w))
  | Up =>
      match serve c (db w) with
      | inl msg => (Raised (ResponseError msg), w_sent (db w))
      | inr (reply, d) => (Returned reply, w_sent d)
      end
  end.

Definition ping (r : Redis) : M Z := execute_command r PING.
Definition sadd (r : Redis) (key member : string) : M Z :=
  execute_command r (SADD key member).
Definition set_ (r : Redis) (key val : string) : M Z :=
  execute_command r (SET key val).

(** ** [datetime.isoformat()]

    [utcnow()] gives a naive datetime, so the text carries no offset:
    ["%04d-%02d-%02dT%02d:%02d:%02d"], followed by [".%06d"] when the
    microsecond is not zero. *)

Fixpoint zeros (n : nat) : string :=
  match n with
  | O => ""
  | S n' => String "0"%char (zeros n')
  end.

(** [s.zfill(width)] for a numeral without sign. *)
Definition zfill (width : nat) (s : string) : string :=
  zeros (width - String.length s) +:+ s.

(** ["%0{width}d" % n] *)
Definition fmt_0d (width : nat) (n : N) : string := zfill width (pretty n).

Definition isoformat (t : datetime) : string :=
  fmt_0d 4 (year t) +:+ "-" +:+ fmt_0d 2 (month t) +:+ "-" +:+
  fmt_0d 2 (day t) +:+ "T" +:+
  fmt_0d 2 (hour t) +:+ ":" +:+ fmt_0d 2 (minute t) +:+ ":" +:+
  fmt_0d 2 (second t) +:+
  (if (microsecond t =? 0)%N then "" else "." +:+ fmt_0d 6 (microsecond t)).

(** The ranges the [datetime] class keeps its fields in. *)
Definition valid_datetime (t : datetime) : Prop :=
  (1 <= year t <= 9999 /\ 1 <= month t <= 12 /\ 1 <= day t <= 31 /\
   hour t < 24 /\ minute t < 60 /\ second t < 60 /\
   microsecond t < 1000000)%N.

(** ** [main] (lines 15-74) *)

Definition INDEX_KEY : string := "sz:test_sets".
Definition PAYLOAD_KEY : string := "sz:test_set:" +:+ TEST_SET_ID.

(** The dictionary of lines 58-65, given the two clock readings. *)
Definition assemble (tests : list TestCase) (t1 t2 : datetime) : TestSet :=
  {| ts_id := TEST_SET_ID;
     ts_name := TEST_SET_NAME;
     description := TEST_SET_DESC;
     tests := tests;
     createdAt := isoformat t1 +:+ "Z";
     updatedAt := isoformat t2 +:+ "Z" |}.

Section Main.

(** [json.dumps], the encoder of Python's standard library. *)
Variable json_dumps : TestSet -> string.

Open Scope py_scope.

(** Lines 57-65: the dictionary [test_set]; its last two entries read
    the clock, one after the other. *)
Definition new_test_set (tests : list TestCase) : M TestSet :=
  now1 <- utcnow ;;
  now2 <- utcnow ;;
  ret (assemble tests now1 now2).

(** Lines 37-74: what runs once the frame is loaded and the server has
    answered the ping. *)
Definition import_frame (r : Redis) (df : DataFrame) : M unit :=
  let tests := build_tests df in
  test_set <- new_test_set tests ;;
  sadd r INDEX_KEY TEST_SET_ID ;;
  set_ r PAYLOAD_KEY (json_dumps test_set) ;;
  print (SuccessfullyImported (length tests) TEST_SET_ID).

Definition main : M unit :=
  print (Reading PARQUET_FILE) ;;
  loaded <- try_ (read_parquet PARQUET_FILE) ;;
  match loaded with
  | inl e => print (ErrorReadingParquet e)            (* return *)
  | inr df =>
      print (LoadedRows (len_df df)) ;;
      print (Columns (columns df)) ;;
      let r := mkRedis REDIS_HOST REDIS_PORT in
      pinged <- try_ (ping r) ;;
      match pinged with
      | inl ConnectionError => print FailedToConnect   (* return *)
      | inl e => raise e                               (* not caught *)
      | inr _ =>
          print ConnectedToRedis ;;
          import_frame r df
      end
  end.

End Main.

(** * Vocabulary of the properties *)

(** What one pair of the iteration contributes to [tests]. *)
Definition case_of (p : Z * Series) : option TestCase :=
  let '(index, row) := p in
  if skip_row row then None
  else Some (test_case index (get row "question") (get row "answer")).

(** The identifier and display name the script gives to position [i]. *)
Definition id_at (i : nat) : string := "GSM8k-T" +:+ pretty (Z.of_nat i).
Definition name_at (i : nat) : string := "GSM8k #" +:+ pretty (Z.of_nat i + 1).

(** The TestCase the script builds from the row at position [i]. *)
Definition case_at (i : nat) (row : Series) : TestCase :=
  test_case (Z.of_nat i) (get row "question") (get row "answer").

(** The rows the guard lets through, as a count. *)
Definition kept (rs : list Series) : nat :=
  length (filter (fun row => skip_row row = false) rs).

(** The rows whose question and answer are both true in Python's sense,
    as a count. *)
Definition truthy_rows (rs : list Series) : nat :=
  length (filter (fun row => Py.truthy (get row "question")
                             && Py.truthy (get row "answer") = true) rs).

(** The rows the guard drops among the first [i]. *)
Definition skipped_before (i : nat) (rs : list Series) : nat :=
  length (filter (fun row => skip_row row = true) (take i rs)).

(** The spec's words for a field that is present and non-empty: not
    [None] (which [row.get] answers for a missing column or a null cell)
    and not the text without characters. *)
Definition non_empty (v : Py.value) : bool :=
  match v with
  | Py.None_ => false
  | Py.Str "" => false
  | _ => true
  end.

(** The rows whose two fields are present and non-empty, as a count. *)
Definition non_empty_rows (rs : list Series) : nat :=
  length (filter (fun row => non_empty (get row "question")
                             && non_empty (get row "answer") = true) rs).

(** The members of the set under [key]; none when the key is unset. *)
Definition smembers (d : keyspace) (key : string) : gset string :=
  match d !! key with
  | Some (RSet s) => s
  | _ => ∅
  end.

(** [SADD] is served on a key that is unset or holds a set. *)
Definition takes_sadd (d : keyspace) (key : string) : Prop :=
  match d !! key with
  | None | Some (RSet _) => True
  | Some _ => False
  end.

#[global] Instance takes_sadd_dec d key : Decision (takes_sadd d key).
Proof. unfold takes_sadd. destruct (d !! key) as [[]|]; apply _. Defined.

(** The parquet file is there and loads as [df]. *)
Definition loads (w : world) (df : DataFrame) : Prop :=
  files w !! PARQUET_FILE = Some (Parquet df).

(** The TestSet a run assembles from [df] in world [w]. *)
Definition test_set_of (w : world) (df : DataFrame) : TestSet :=
  assemble (build_tests df) (clock w (ticks w)) (clock w (S (ticks w))).

(** ** The shape of an ISO-8601 timestamp in UTC *)

Definition is_digit (c : ascii) : bool :=
  let n := N_of_ascii c in ((48 <=? n) && (n <=? 57))%N.

(** One place of a pattern: any decimal digit, or a given character. *)
Inductive place : Type :=
| D
| L (c : ascii).

Fixpoint matches (p : list place) (s : string) : bool :=
  match p, s with
  | [], EmptyString => true
  | D :: p', String c s' => is_digit c && matches p' s'
  | L a :: p', String c s' => Ascii.eqb a c && matches p' s'
  | _, _ => false
  end.

(** [YYYY-MM-DDThh:mm:ss] *)
Definition date_time : list place :=
  [D; D; D; D; L "-"; D; D; L "-"; D; D; L "T";
   D; D; L ":"; D; D; L ":"; D; D]%char.

(** The extended format with the UTC designator [Z], with or without a
    fraction of six digits. *)
Definition iso8601_utc_z (s : string) : bool :=
  matches (date_time ++ [L "Z"%char]) s ||
  matches (date_time ++ [L "."; D; D; D; D; D; D; L "Z"]%char) s.

(** The last [width] decimal digits of [x], in front of [s]. *)
Fixpoint digits_go (width : nat) (x : N) (s : string) : string :=
  match width with
  | O => s
  | S width' =>
      digits_go width' (x `div` 10)%N (String (pretty_N_char (x `mod` 10)%N) s)
  end.

(** ** Sample inputs *)

(** A row with the two columns of the GSM8k file. *)
Definition qa_row (question answer : Py.value) : Series :=
  {[ "question" := question; "answer" := answer ]}.

Definition frame (rs : list Series) : DataFrame :=
  mkDataFrame ["question"; "answer"] rs.

(** Three rows, the middle one with a null answer. *)
Definition df_gap : DataFrame :=
  frame [ qa_row (Py.Str "Q0") (Py.Str "A0");
          qa_row (Py.Str "Q1") Py.None_;
          qa_row (Py.Str "Q2") (Py.Str "A2") ].

(** One row whose answer is the integer zero. *)
Definition df_zero : DataFrame :=
  frame [ qa_row (Py.Str "What is 3 - 3?") (Py.Int 0) ].


(** An encoder to run the examples with: the identifiers of the records
    and the two timestamps. The theorems hold for any encoder. *)
Definition sample_dumps (ts : TestSet) : string :=
  "[" +:+ String.concat "," (tc_id <$> tests ts) +:+ "] " +:+
  createdAt ts +:+ " " +:+ updatedAt ts.

(** A clock that has moved on by a microsecond at each reading. *)
Definition sample_clock (n : nat) : datetime :=
  mkDatetime 2025 1 15 9 30 0 (250000 + N.of_nat n).

Definition world_of (fs : gmap string file) (l : link) (d : keyspace) : world :=
  {| files := fs; redis_link := l; db := d;
     clock := sample_clock; ticks := 0; stdout := []; wire := [] |}.

(** The file is in place, the server serves and its keyspace is empty. *)
Definition fresh_world (df : DataFrame) : world :=
  world_of {[ PARQUET_FILE := Parquet df ]} Up ∅.

(** An earlier import and a foreign key are in the keyspace. *)
Definition used_keyspace : keyspace :=
  {[ INDEX_KEY := RSet {[ "MMLU" ]};
     PAYLOAD_KEY := RString "an earlier import";
     "sz:test_set:MMLU" := RString "another set" ]}.

Definition used_world (df : DataFrame) : world :=
  world_of {[ PARQUET_FILE := Parquet df ]} Up used_keyspace.

(** No file at the path. *)
Definition world_without_file : world := world_of ∅ Up used_keyspace.

(** The server cannot be reached. *)
Definition world_unreachable : world :=
  world_of {[ PARQUET_FILE := Parquet df_gap ]} Unreachable used_keyspace.

(** ** Vocabulary of the run as a whole *)

(** The world [w] after a run that left the keyspace [d], took the clock
    to [n] readings, printed [out] and sent [sent]. *)
Definition after (w : world) (d : keyspace) (n : nat)
    (out : list line) (sent : list command) : world :=
  {| files := files w; redis_link := redis_link w; db := d;
     clock := clock w; ticks := n;
     stdout := stdout w ++ out; wire := wire w ++ sent |}.

(** What a run from [w] to [w'] printed and sent. *)
Definition printed (w w' : world) : list line :=
  drop (length (stdout w)) (stdout w').

Definition sent_commands (w w' : world) : list command :=
  drop (length (wire w)) (wire w').

(** A cell that holds a text or nothing. *)
Definition text_or_none (v : Py.value) : Prop :=
  v = Py.None_ \/ exists s, v = Py.Str s.

(** The keyspace the run leaves when it reaches the store. *)
Definition imported (d : keyspace) (payload : string) : keyspace :=
  <[PAYLOAD_KEY := RString payload]>
    (<[INDEX_KEY := RSet (smembers d INDEX_KEY ∪ {[TEST_SET_ID]})]> d).


(** The index key holds a text instead of a set. *)
Definition world_wrongtype : world :=
  world_of {[ PARQUET_FILE := Parquet df_gap ]} Up
    {[ INDEX_KEY := RString "not a set";
       PAYLOAD_KEY := RString "an earlier import" ]}.

(** The server answers every command with NOPERM. *)
Definition world_refusing : world :=
  world_of {[ PARQUET_FILE := Parquet df_gap ]} Refusing used_keyspace.

(** ** The frame in general: index labels and missing cells

    [pd.read_parquet] restores the index that the file stores, so the
    label that [iterrows] hands out with a row need not be the position
    of the row; and a cell may hold [pd.NA], whose truth value raises.
    The frame above is the case of a file that stores no index and whose
    cells are scalars; [with_default_index] embeds it here. *)

Module Labelled.

(** A cell: a Python scalar, or [pd.NA]. *)
Inductive cell : Type :=
| Val (v : Py.value)
| NA.

(** An index label: an integer or a text. *)
Inductive label : Type :=
| IntLabel (n : Z)
| TextLabel (s : string).

#[global] Instance label_eq_dec : EqDecision label.
Proof. solve_decision. Defined.

Abbreviation Series := (gmap string cell).

Record DataFrame : Type := mkDataFrame {
  columns : list string;
  index : list label;
  rows : list Series
}.

(** [row.get(key)] *)
Definition get (row : Series) (key : string) : cell :=
  default (Val Py.None_) (row !! key).

(** [df.iterrows()]: each row with its label, in file order. *)
Definition iterrows (df : DataFrame) : list (label * Series) :=
  zip (index df) (rows df).

(** [not c]: [bool(pd.NA)] raises. *)
Definition not_ (c : cell) : outcome bool :=
  match c with
  | Val v => Returned (Py.not_ v)
  | NA => Raised (TypeError "boolean value of NA is ambiguous")
  end.

(** [f"{index}"] *)
Definition format (index : label) : string :=
  match index with
  | IntLabel n => pretty n
  | TextLabel s => s
  end.

(** [index + 1]: a text and an integer do not add. *)
Definition plus_one (index : label) : outcome label :=
  match index with
  | IntLabel n => Returned (IntLabel (n + 1))
  | TextLabel _ => Raised (TypeError "can only concatenate str to str")
  end.

(** The dictionary literal of lines 48-54. *)
Definition test_case (index : label) (question answer : Py.value)
  : outcome TestCase :=
  match plus_one index with
  | Raised e => Raised e
  | Returned next =>
      Returned {| tc_id := TEST_SET_ID +:+ "-T" +:+ format index;
                  tc_name := "GSM8k #" +:+ format next;
                  prompt := question;
                  expectedActivations := [];
                  expectedResponse := answer |}
  end.

(** Lines 42-55, one pass of the loop body: it raises, or goes on to the
    next row ([None]), or has a record to append. In
    [not question or not answer] the answer is looked at only when the
    question is true. *)
Definition body (index : label) (row : Series) : outcome (option TestCase) :=
  let question := get row "question" in
  let answer := get row "answer" in
  match question with
  | NA => Raised (TypeError "boolean value of NA is ambiguous")
  | Val q =>
      if Py.not_ q then Returned None
      else
        match answer with
        | NA => Raised (TypeError "boolean value of NA is ambiguous")
        | Val a =>
            if Py.not_ a then Returned None
            else
              match test_case index q a with
              | Raised e => Raised e
              | Returned tc => Returned (Some tc)
              end
        end
  end.

(** The [for] loop of lines 40-55. *)
Fixpoint transform_loop (it : list (label * Series)) (tests : list TestCase)
  : outcome (list TestCase) :=
  match it with
  | [] => Returned tests
  | (index, row) :: it' =>
      match body index row with
      | Raised e => Raised e
      | Returned None => transform_loop it' tests
      | Returned (Some tc) => transform_loop it' (tests ++ [tc])
      end
  end.

(** Lines 38-55 *)
Definition build_tests (df : DataFrame) : outcome (list TestCase) :=
  transform_loop (iterrows df) [].

(** The pass over a row goes on without a record. *)
Definition is_skipped (p : label * Series) : bool :=
  match body p.1 p.2 with
  | Returned None => true
  | _ => false
  end.

(** The rows passed over among the first [i]. *)
Definition skipped_before (i : nat) (it : list (label * Series)) : nat :=
  length (filter (fun p => is_skipped p = true) (take i it)).

(** The spec's words for a field, read on cells. Absent or empty in the
    narrow sense: [None] (no such column, or a null cell read as [None])
    or the text without characters. Missing or empty in the sense of
    pandas: what [pd.isna] accepts ([None], NaN, [pd.NA]) or the text
    without characters. *)
Definition none_or_empty (c : cell) : Prop :=
  c = Val Py.None_ \/ c = Val (Py.Str "").

Definition missing_or_empty (c : cell) : Prop :=
  c = Val Py.None_ \/ c = Val (Py.Float S754_nan) \/ c = NA \/
  c = Val (Py.Str "").

(** The record of lines 48-54 for an integer label. *)
Definition record (n : Z) (q a : Py.value) : TestCase :=
  {| tc_id := "GSM8k-T" +:+ pretty n;
     tc_name := "GSM8k #" +:+ pretty (n + 1);
     prompt := q;
     expectedActivations := [];
     expectedResponse := a |}.

End Labelled.

(** The index of a file that stores none: [RangeIndex(0, n)]. *)
Definition default_index (n : nat) : list Labelled.label :=
  (fun i => Labelled.IntLabel (Z.of_nat i)) <$> seq 0 n.

(** A frame with scalar cells and no stored index, as a general frame. *)
Definition with_default_index (df : DataFrame) : Labelled.DataFrame :=
  {| Labelled.columns := columns df;
     Labelled.index := default_index (length (rows df));
     Labelled.rows :=
       (fun row : Series => (Labelled.Val <$> row : Labelled.Series))
         <$> rows df |}.

(** A row of cells with the two columns of the GSM8k file. *)
Definition qa_cells (question answer : Labelled.cell) : Labelled.Series :=
  {[ "question" := question; "answer" := answer ]}.

(** A file that stores the index 10, 20 with its two rows. *)
Definition df_labels_10_20 : Labelled.DataFrame :=
  {| Labelled.columns := ["question"; "answer"];
     Labelled.index := [Labelled.IntLabel 10; Labelled.IntLabel 20];
     Labelled.rows :=
       [ qa_cells (Labelled.Val (Py.Str "Q0")) (Labelled.Val (Py.Str "A0"));
         qa_cells (Labelled.Val (Py.Str "Q1")) (Labelled.Val (Py.Str "A1")) ] |}.

(** The labels 10, 20, 30, the middle row with a null answer. *)
Definition df_labels_gap : Labelled.DataFrame :=
  {| Labelled.columns := ["question"; "answer"];
     Labelled.index :=
       [Labelled.IntLabel 10; Labelled.IntLabel 20; Labelled.IntLabel 30];
     Labelled.rows :=
       [ qa_cells (Labelled.Val (Py.Str "Q0")) (Labelled.Val (Py.Str "A0"));
         qa_cells (Labelled.Val (Py.Str "Q1")) (Labelled.Val Py.None_);
         qa_cells (Labelled.Val (Py.Str "Q2")) (Labelled.Val (Py.Str "A2")) ] |}.

(** One row whose answer is missing as NaN. *)
Definition df_cells_nan : Labelled.DataFrame :=
  {| Labelled.columns := ["question"; "answer"];
     Labelled.index := [Labelled.IntLabel 0];
     Labelled.rows :=
       [ qa_cells (Labelled.Val (Py.Str "Q")) (Labelled.Val (Py.Float S754_nan)) ] |}.

(** One row whose question is missing as [pd.NA] and whose answer is
    empty. *)
Definition df_cells_na : Labelled.DataFrame :=
  {| Labelled.columns := ["question"; "answer"];
     Labelled.index := [Labelled.IntLabel 0];
     Labelled.rows :=
       [ qa_cells Labelled.NA (Labelled.Val (Py.Str "")) ] |}.

(** * Properties *)

(** ** The transform pass *)

Lemma transform_loop_spec it acc :
  transform_loop it acc = acc ++ omap case_of it.
Proof.
  revert acc. induction it as [|[index row] it IH]; intros acc; simpl.
  - by rewrite app_nil_r.
  - fold (skip_row row). destruct (skip_row row); rewrite IH; [done|].
    by rewrite <- app_assoc.
Qed.

Lemma build_tests_omap df : build_tests df = omap case_of (iterrows df).
Proof. unfold build_tests. by rewrite transform_loop_spec. Qed.

Lemma build_tests_nil cols : build_tests (mkDataFrame cols []) = [].
Proof. done. Qed.

Lemma build_tests_snoc cols rs r :
  build_tests (mkDataFrame cols (rs ++ [r])) =
  build_tests (mkDataFrame cols rs) ++
  (if skip_row r then [] else [case_at (length rs) r]).
Proof.
  rewrite !build_tests_omap. unfold iterrows; simpl.
  rewrite imap_app, omap_app; simpl. rewrite Nat.add_0_r.
  unfold case_at. by destruct (skip_row r).
Qed.

Lemma build_tests_rows df :
  build_tests df = build_tests (mkDataFrame [] (rows df)).
Proof. by destruct df. Qed.

Lemma elem_of_build_tests cols rs t :
  t ∈ build_tests (mkDataFrame cols rs) ->
  exists i row, rs !! i = Some row /\ skip_row row = false /\ t = case_at i row.
Proof.
  induction rs as [|r rs IH] using rev_ind.
  - rewrite build_tests_nil. by intros ?%elem_of_nil.
  - rewrite build_tests_snoc, elem_of_app. intros [Hin|Hin].
    + destruct (IH Hin) as (i & row & Hi & Hk & ->).
      exists i, row. split_and!; [|done..].
      rewrite lookup_app_l; [done|]. by eapply lookup_lt_Some.
    + destruct (skip_row r) eqn:Hr; [by apply elem_of_nil in Hin|].
      apply list_elem_of_singleton in Hin as ->.
      exists (length rs), r. split_and!; [|done..].
      by rewrite list_lookup_middle.
Qed.

Lemma id_at_inj : Inj (=) (=) id_at.
Proof.
  intros i j H. unfold id_at in H. simplify_eq/=.
  apply Nat2Z.inj. by apply (inj pretty).
Qed.

Lemma tc_id_case_at i row : tc_id (case_at i row) = id_at i.
Proof. done. Qed.

Lemma tc_name_case_at i row : tc_name (case_at i row) = name_at i.
Proof. done. Qed.

Lemma filter_none {A} (P : A -> Prop) `{!forall x, Decision (P x)} (l : list A) :
  (forall x, x ∈ l -> ~ P x) -> filter P l = [].
Proof.
  induction l as [|x l IH]; intros Hno; [done|].
  rewrite filter_cons_False; [|apply Hno; by left].
  apply IH. intros y Hy. apply Hno. by right.
Qed.

(** The records of [tests] that carry the identifier of position [i]:
    the one built from that row when the guard lets it through, none
    otherwise. *)
Lemma tests_for_row df i row :
  rows df !! i = Some row ->
  filter (fun t => tc_id t = id_at i) (build_tests df) =
  if skip_row row then [] else [case_at i row].
Proof.
  destruct df as [cols rs]; simpl. revert i row.
  induction rs as [|r rs IH] using rev_ind; intros i row Hi; [done|].
  rewrite build_tests_snoc, filter_app.
  apply lookup_snoc_Some in Hi as [[Hlt Hi]|[-> ->]].
  - rewrite (IH _ _ Hi).
    rewrite (filter_none _ (if skip_row r then _ else _)).
    { by rewrite app_nil_r. }
    intros t Ht. destruct (skip_row r); [by apply elem_of_nil in Ht|].
    apply list_elem_of_singleton in Ht as ->. rewrite tc_id_case_at.
    intros ?%id_at_inj. lia.
  - rewrite filter_none.
    { destruct (skip_row row); [done|]. by rewrite filter_cons_True. }
    intros t (j & row' & Hj & _ & ->)%elem_of_build_tests.
    rewrite tc_id_case_at. intros ?%id_at_inj. subst j.
    apply lookup_lt_Some in Hj. lia.
Qed.

Lemma length_build_tests df : length (build_tests df) = kept (rows df).
Proof.
  destruct df as [cols rs]; simpl. unfold kept.
  induction rs as [|r rs IH] using rev_ind; [done|].
  rewrite build_tests_snoc, filter_app, !length_app, IH. f_equal.
  destruct (skip_row r) eqn:Hr.
  - by rewrite filter_cons_False by (rewrite Hr; done).
  - by rewrite filter_cons_True.
Qed.

Lemma kept_skipped rs :
  (kept rs + skipped_before (length rs) rs = length rs)%nat.
Proof.
  unfold kept, skipped_before. rewrite firstn_all.
  induction rs as [|r rs IH]; [done|].
  rewrite !filter_cons. destruct (skip_row r); simpl.
  - repeat case_decide; try done. simpl. lia.
  - repeat case_decide; try done. simpl. lia.
Qed.

(** The guard in the words of Python truthiness. *)
Lemma skip_row_truthy row :
  skip_row row =
  negb (Py.truthy (get row "question") && Py.truthy (get row "answer")).
Proof. unfold skip_row, Py.not_. by rewrite negb_andb. Qed.

(** Truthiness and the spec's non-emptiness agree on text and [None]. *)
Lemma truthy_non_empty_text v :
  v = Py.None_ \/ (exists s, v = Py.Str s) -> Py.truthy v = non_empty v.
Proof. intros [->|[s ->]]; [done|]. by destruct s. Qed.

Lemma kept_truthy_rows rs : kept rs = truthy_rows rs.
Proof.
  unfold kept, truthy_rows. f_equal. apply list_filter_iff. intros row.
  rewrite skip_row_truthy. by destruct (_ && _).
Qed.

(** The same for a position that may lie outside the frame. *)
Lemma tests_for_position df i :
  filter (fun t => tc_id t = id_at i) (build_tests df) =
  match rows df !! i with
  | Some row => if skip_row row then [] else [case_at i row]
  | None => []
  end.
Proof.
  destruct (rows df !! i) as [row|] eqn:Hi; [by apply tests_for_row|].
  apply filter_none. destruct df as [cols rs]; simpl in *.
  intros t (j & row & Hj & _ & ->)%elem_of_build_tests.
  rewrite tc_id_case_at. intros ?%id_at_inj. congruence.
Qed.

(** The three-row example: the middle row is dropped, and the last one
    keeps the number of its position. *)
Example build_tests_df_gap :
  build_tests df_gap =
  [ {| tc_id := "GSM8k-T0"; tc_name := "GSM8k #1"; prompt := Py.Str "Q0";
       expectedActivations := []; expectedResponse := Py.Str "A0" |};
    {| tc_id := "GSM8k-T2"; tc_name := "GSM8k #3"; prompt := Py.Str "Q2";
       expectedActivations := []; expectedResponse := Py.Str "A2" |} ].
Proof. vm_compute. reflexivity. Qed.

(** ** Runs of [main] *)

Lemma index_payload_distinct : INDEX_KEY <> PAYLOAD_KEY.
Proof. done. Qed.

(** Unfolds a run down to the lookups its course depends on. *)
Ltac unfold_run :=
  unfold main, import_frame, new_test_set, bind, try_, ret, raise, print,
    read_parquet, ping, sadd, set_, utcnow, execute_command; simpl.

Section Runs.

Variable json_dumps : TestSet -> string.

(** A run on a loadable file, a serving server and an index key that
    takes [SADD]. *)
Lemma main_success w df :
  loads w df -> redis_link w = Up -> takes_sadd (db w) INDEX_KEY ->
  exists w',
    main json_dumps w = (Returned tt, w') /\
    files w' = files w /\ redis_link w' = redis_link w /\
    clock w' = clock w /\ ticks w' = S (S (ticks w)) /\
    db w' = <[PAYLOAD_KEY := RString (json_dumps (test_set_of w df))]>
              (<[INDEX_KEY := RSet (smembers (db w) INDEX_KEY ∪ {[TEST_SET_ID]})]>
                 (db w)) /\
    wire w' = wire w ++ [PING; SADD INDEX_KEY TEST_SET_ID;
                         SET PAYLOAD_KEY (json_dumps (test_set_of w df))] /\
    stdout w' = stdout w ++
      [Reading PARQUET_FILE; LoadedRows (len_df df); Columns (columns df);
       ConnectedToRedis;
       SuccessfullyImported (length (build_tests df)) TEST_SET_ID].
Proof.
  intros Hload Hup Hidx. unfold loads in Hload.
  unfold takes_sadd in Hidx. unfold smembers.
  unfold_run. rewrite Hload; simpl. rewrite Hup; simpl.
  destruct (db w !! INDEX_KEY) as [[s|s|l]|] eqn:Hd; try done; simpl.
  - eexists; split; [reflexivity|]; simpl. unfold test_set_of.
    split_and!; try done; by rewrite <- ?app_assoc.
  - eexists; split; [reflexivity|]; simpl. unfold test_set_of.
    rewrite (left_id_L ∅ (∪)).
    split_and!; try done; by rewrite <- ?app_assoc.
Qed.

End Runs.

Section Failures.

Variable json_dumps : TestSet -> string.

(** The file does not load: [main] prints the error and returns. *)
Lemma main_load_failure w e :
  fst (read_parquet PARQUET_FILE w) = Raised e ->
  exists w',
    main json_dumps w = (Returned tt, w') /\
    files w' = files w /\ db w' = db w /\ wire w' = wire w /\
    stdout w' = stdout w ++ [Reading PARQUET_FILE; ErrorReadingParquet e].
Proof.
  unfold_run.
  destruct (files w !! PARQUET_FILE) as [[df|]|]; simpl; intros He;
    simplify_eq; eexists; (split; [reflexivity|]); simpl;
    split_and!; try done; by rewrite <- app_assoc.
Qed.

(** The file loads and the ping fails: nothing but the ping is sent. *)
Lemma main_ping_failure w df :
  loads w df -> redis_link w <> Up ->
  exists o w',
    main json_dumps w = (o, w') /\
    files w' = files w /\ db w' = db w /\ wire w' = wire w ++ [PING] /\
    match redis_link w with
    | Unreachable =>
        o = Returned tt /\
        stdout w' = stdout w ++
          [Reading PARQUET_FILE; LoadedRows (len_df df);
           Columns (columns df); FailedToConnect]
    | _ => o = Raised (ResponseError "NOPERM")
    end.
Proof.
  intros Hload Hdown. unfold loads in Hload.
  unfold_run. rewrite Hload; simpl.
  destruct (redis_link w) eqn:Hl; [done|..]; simpl;
    do 2 eexists; (split; [reflexivity|]); simpl; split_and!; try done.
  by rewrite <- !app_assoc.
Qed.

(** The ping is answered and the index key holds another type: [SADD]
    is refused and the exception leaves [main]. *)
Lemma main_wrongtype w df :
  loads w df -> redis_link w = Up -> ~ takes_sadd (db w) INDEX_KEY ->
  exists w',
    main json_dumps w = (Raised (ResponseError "WRONGTYPE"), w') /\
    files w' = files w /\ db w' = db w /\
    wire w' = wire w ++ [PING; SADD INDEX_KEY TEST_SET_ID].
Proof.
  intros Hload Hup Hidx. unfold loads in Hload. unfold takes_sadd in Hidx.
  unfold_run. rewrite Hload; simpl. rewrite Hup; simpl.
  destruct (db w !! INDEX_KEY) as [[s|s|l]|] eqn:Hd; try done; simpl;
    eexists; (split; [reflexivity|]); simpl; split_and!; try done;
    by rewrite <- app_assoc.
Qed.

(** The ping of the script's client fails exactly when the server is
    not serving. *)
Lemma ping_fails w r e :
  fst (ping r w) = Raised e -> redis_link w <> Up.
Proof.
  unfold ping, execute_command; simpl. by destruct (redis_link w).
Qed.

(** The load either gives a frame or raises. *)
Lemma loads_or_raises w :
  (exists df, loads w df) \/ (exists e, fst (read_parquet PARQUET_FILE w) = Raised e).
Proof.
  unfold loads, read_parquet.
  destruct (files w !! PARQUET_FILE) as [[df|]|]; simpl; eauto.
Qed.

(** Whatever the run does, it leaves every key other than the index key
    and the payload key as it was. *)
Lemma main_frame w k :
  k <> INDEX_KEY -> k <> PAYLOAD_KEY ->
  db (snd (main json_dumps w)) !! k = db w !! k.
Proof.
  intros Hi Hp.
  destruct (loads_or_raises w) as [[df Hload]|[e He]].
  - destruct (decide (redis_link w = Up)) as [Hup|Hdown].
    + destruct (decide (takes_sadd (db w) INDEX_KEY)) as [Hidx|Hidx].
      * destruct (main_success json_dumps w df Hload Hup Hidx)
          as (w' & Hrun & _ & _ & _ & _ & Hdb & _).
        rewrite Hrun; simpl. rewrite Hdb. by rewrite !lookup_insert_ne.
      * destruct (main_wrongtype w df Hload Hup Hidx)
          as (w' & Hrun & _ & Hdb & _).
        rewrite Hrun; simpl. by rewrite Hdb.
    + destruct (main_ping_failure w df Hload Hdown)
        as (o & w' & Hrun & _ & Hdb & _).
      rewrite Hrun; simpl. by rewrite Hdb.
  - destruct (main_load_failure w e He) as (w' & Hrun & _ & Hdb & _).
    rewrite Hrun; simpl. by rewrite Hdb.
Qed.

End Failures.

Lemma count_in_elements (s : gset string) (x : string) :
  x ∈ s -> length (filter (fun m => m = x) (elements s)) = 1%nat.
Proof.
  intros Hx. apply elem_of_elements in Hx.
  pose proof (NoDup_elements s) as Hnd.
  induction Hnd as [|m l Hm Hnd IH]; [by apply elem_of_nil in Hx|].
  apply elem_of_cons in Hx as [<-|Hx].
  - rewrite filter_cons_True by done. simpl. f_equal.
    rewrite filter_none; [done|]. intros y Hy ->. done.
  - rewrite filter_cons_False; [by apply IH|]. intros ->. done.
Qed.

Section Claims.

Variable json_dumps : TestSet -> string.

(** ** C3 *)

(** C3, as amended: on a run that reaches the store, the [tests] of the
    persisted TestSet are as many as the rows whose question and answer
    are both true in Python's sense, and the last line printed reports
    that number. *)
Theorem persisted_length_counts_truthy_rows w df :
  loads w df -> redis_link w = Up -> takes_sadd (db w) INDEX_KEY ->
  let w' := snd (main json_dumps w) in
  db w' !! PAYLOAD_KEY = Some (RString (json_dumps (test_set_of w df))) /\
  length (tests (test_set_of w df)) = truthy_rows (rows df) /\
  last (stdout w') =
    Some (SuccessfullyImported (truthy_rows (rows df)) TEST_SET_ID).
Proof.
  intros Hload Hup Hidx.
  destruct (main_success json_dumps w df Hload Hup Hidx)
    as (w' & Hrun & _ & _ & _ & _ & Hdb & _ & Hout).
  rewrite Hrun; simpl. rewrite Hdb, Hout. split_and!.
  - by rewrite lookup_insert_eq.
  - by rewrite length_build_tests, kept_truthy_rows.
  - rewrite last_app_cons. simpl.
    by rewrite length_build_tests, kept_truthy_rows.
Qed.

(** ** C5 *)

(** C5: when [pd.read_parquet] raises, [main] returns with no command
    sent to the server, the ping included, and the keyspace as it
    was. *)
Theorem load_failure_sends_nothing w e :
  fst (read_parquet PARQUET_FILE w) = Raised e ->
  fst (main json_dumps w) = Returned tt /\
  wire (snd (main json_dumps w)) = wire w /\
  db (snd (main json_dumps w)) = db w.
Proof.
  intros He.
  destruct (main_load_failure json_dumps w e He)
    as (w' & Hrun & _ & Hdb & Hwire & _).
  by rewrite Hrun.
Qed.

(** ** C6 *)

(** C6: when the ping of the script's client fails, the run ends with
    the keyspace as it was, the earlier payload included; at most the
    ping itself went to the server. *)
Theorem ping_failure_writes_nothing w e :
  fst (ping (mkRedis REDIS_HOST REDIS_PORT) w) = Raised e ->
  let w' := snd (main json_dumps w) in
  db w' = db w /\
  db w' !! PAYLOAD_KEY = db w !! PAYLOAD_KEY /\
  (wire w' = wire w \/ wire w' = wire w ++ [PING]).
Proof.
  intros Hdown%ping_fails.
  destruct (loads_or_raises w) as [[df Hload]|[e' He]].
  - destruct (main_ping_failure json_dumps w df Hload Hdown)
      as (o & w' & Hrun & _ & Hdb & Hwire & _).
    rewrite Hrun; simpl. rewrite Hdb. auto.
  - destruct (main_load_failure json_dumps w e' He)
      as (w' & Hrun & _ & Hdb & Hwire & _).
    rewrite Hrun; simpl. rewrite Hdb. auto.
Qed.

(** ** C7 *)

(** C7: two runs in a row on the same file. Both return; the index set
    after the second run is the one after the first and lists ["GSM8k"]
    once; the payload key holds the text of the second run's TestSet,
    and the keyspace after the second run is the one after the first
    with that key replaced. *)
Theorem rerun_is_idempotent w0 df :
  loads w0 df -> redis_link w0 = Up -> takes_sadd (db w0) INDEX_KEY ->
  let w1 := snd (main json_dumps w0) in
  let w2 := snd (main json_dumps w1) in
  fst (main json_dumps w0) = Returned tt /\
  fst (main json_dumps w1) = Returned tt /\
  db w2 !! INDEX_KEY = db w1 !! INDEX_KEY /\
  (exists s, db w2 !! INDEX_KEY = Some (RSet s) /\
             length (filter (fun m => m = "GSM8k") (elements s)) = 1%nat) /\
  db w2 !! PAYLOAD_KEY = Some (RString (json_dumps (test_set_of w1 df))) /\
  db w2 = <[PAYLOAD_KEY := RString (json_dumps (test_set_of w1 df))]> (db w1).
Proof.
  intros Hload Hup Hidx.
  destruct (main_success json_dumps w0 df Hload Hup Hidx)
    as (w1 & Hrun1 & Hf1 & Hl1 & _ & _ & Hdb1 & _).
  rewrite Hrun1; simpl.
  assert (db w1 !! INDEX_KEY =
          Some (RSet (smembers (db w0) INDEX_KEY ∪ {[TEST_SET_ID]}))) as Hi1.
  { rewrite Hdb1, lookup_insert_ne by done. by rewrite lookup_insert_eq. }
  assert (loads w1 df) as Hload1 by (unfold loads; by rewrite Hf1).
  assert (redis_link w1 = Up) as Hup1 by congruence.
  assert (takes_sadd (db w1) INDEX_KEY) as Hidx1
    by (unfold takes_sadd; by rewrite Hi1).
  destruct (main_success json_dumps w1 df Hload1 Hup1 Hidx1)
    as (w2 & Hrun2 & _ & _ & _ & _ & Hdb2 & _).
  rewrite Hrun2; simpl.
  assert (smembers (db w1) INDEX_KEY ∪ {[TEST_SET_ID]} =
          smembers (db w0) INDEX_KEY ∪ {[TEST_SET_ID]}) as Hsame.
  { unfold smembers at 1. rewrite Hi1.
    by rewrite <- (assoc_L (∪)), (idemp_L (∪)). }
  assert (db w2 !! INDEX_KEY = db w1 !! INDEX_KEY) as Hi2.
  { rewrite Hdb2, lookup_insert_ne by done.
    by rewrite lookup_insert_eq, Hsame, Hi1. }
  split_and!; try done.
  - eexists. split; [by rewrite Hi2, Hi1|].
    apply count_in_elements, elem_of_union_r. by apply elem_of_singleton.
  - by rewrite Hdb2, lookup_insert_eq.
  - rewrite Hdb2. f_equal. apply insert_id. by rewrite Hsame.
Qed.

(** ** C8 *)

(** C8: a run that reaches the store sends one [SADD] and one [SET]
    after the ping; the index key then holds its earlier members and
    ["GSM8k"], the payload key the new text, and every other key what
    it held before. *)
Theorem run_touches_two_keys w df :
  loads w df -> redis_link w = Up -> takes_sadd (db w) INDEX_KEY ->
  let w' := snd (main json_dumps w) in
  fst (main json_dumps w) = Returned tt /\
  wire w' = wire w ++
    [PING; SADD "sz:test_sets" "GSM8k";
     SET "sz:test_set:GSM8k" (json_dumps (test_set_of w df))] /\
  db w' !! "sz:test_sets" =
    Some (RSet (smembers (db w) "sz:test_sets" ∪ {[ "GSM8k" ]})) /\
  db w' !! "sz:test_set:GSM8k" =
    Some (RString (json_dumps (test_set_of w df))) /\
  forall k, k <> "sz:test_sets" -> k <> "sz:test_set:GSM8k" ->
            db w' !! k = db w !! k.
Proof.
  intros Hload Hup Hidx.
  destruct (main_success json_dumps w df Hload Hup Hidx)
    as (w' & Hrun & _ & _ & _ & _ & Hdb & Hwire & _).
  rewrite Hrun; simpl. rewrite Hdb. split_and!; try done.
  - rewrite lookup_insert_ne by done. by rewrite lookup_insert_eq.
  - by rewrite lookup_insert_eq.
  - intros k Hi Hp. by rewrite !lookup_insert_ne.
Qed.

End Claims.

(** ** C10 *)


(** ** [isoformat] writes fields of fixed width *)

Lemma is_digit_pretty_N_char x : is_digit (pretty_N_char x) = true.
Proof. unfold pretty_N_char. by repeat case_match. Qed.

Lemma append_String c s1 s2 : String c s1 +:+ s2 = String c (s1 +:+ s2).
Proof. reflexivity. Qed.

Lemma append_empty s : "" +:+ s = s.
Proof. reflexivity. Qed.

Lemma zeros_snoc n s : zeros n +:+ String "0"%char s = zeros (S n) +:+ s.
Proof.
  induction n as [|n IH]; [done|].
  cbn [zeros] in *. rewrite !append_String in *. by f_equal.
Qed.

Lemma digits_go_pretty width x s :
  (x < 10 ^ N.of_nat width)%N ->
  digits_go width x s =
  zeros (width + String.length s - String.length (pretty_N_go x s))
  +:+ pretty_N_go x s.
Proof.
  revert x s. induction width as [|width IH]; intros x s Hx.
  - assert (x = 0%N) as -> by (simpl in Hx; lia).
    rewrite pretty_N_go_0. simpl. by rewrite Nat.sub_diag.
  - simpl digits_go. rewrite IH.
    2:{ rewrite Nat2N.inj_succ, N.pow_succ_r' in Hx.
        apply N.Div0.div_lt_upper_bound. lia. }
    destruct (decide (x = 0%N)) as [->|Hpos].
    + rewrite pretty_N_go_0.
      change (0 `div` 10)%N with 0%N. change (0 `mod` 10)%N with 0%N.
      rewrite pretty_N_go_0. simpl String.length.
      replace (width + S (String.length s) - S (String.length s))%nat
        with width by lia.
      replace (S width + String.length s - String.length s)%nat
        with (S width) by lia.
      apply zeros_snoc.
    + rewrite (pretty_N_go_step x s) by lia. simpl String.length.
      by rewrite Nat.add_succ_r.
Qed.

(** Within the range of the field, [%0{width}d] writes exactly [width]
    digits. *)
Lemma fmt_0d_digits width x :
  (0 < width)%nat -> (x < 10 ^ N.of_nat width)%N ->
  fmt_0d width x = digits_go width x "".
Proof.
  intros Hw Hx. rewrite digits_go_pretty by done.
  unfold fmt_0d, zfill, pretty, pretty_N. simpl String.length.
  rewrite Nat.add_0_r. case_decide as H0; [|done]. subst x.
  rewrite pretty_N_go_0. simpl String.length. rewrite Nat.sub_0_r.
  destruct width as [|width]; [lia|].
  replace (S width - 1)%nat with width by lia. apply zeros_snoc.
Qed.

Lemma isoformat_shape t :
  valid_datetime t -> iso8601_utc_z (isoformat t +:+ "Z") = true.
Proof.
  intros (Hy & Hm & Hd & Hh & Hmi & Hs & Hus). unfold isoformat.
  rewrite (fmt_0d_digits 4 (year t)), (fmt_0d_digits 2 (month t)),
    (fmt_0d_digits 2 (day t)), (fmt_0d_digits 2 (hour t)),
    (fmt_0d_digits 2 (minute t)), (fmt_0d_digits 2 (second t))
    by (simpl; lia).
  unfold iso8601_utc_z.
  destruct (microsecond t =? 0)%N.
  - apply orb_true_iff; left.
    cbn [digits_go]. repeat (rewrite append_String || rewrite append_empty).
    cbn [date_time app matches]. by rewrite !is_digit_pretty_N_char.
  - apply orb_true_iff; right.
    rewrite (fmt_0d_digits 6 (microsecond t)) by (simpl; lia).
    cbn [digits_go]. repeat (rewrite append_String || rewrite append_empty).
    cbn [date_time app matches]. by rewrite !is_digit_pretty_N_char.
Qed.

(** ** C4 *)

(** C4, as amended: the TestSet is assembled from two readings of the
    clock, the first for [createdAt] and the second for [updatedAt];
    each field is the [isoformat] text of its reading followed by [Z],
    which has the shape of an ISO-8601 timestamp in UTC; the two fields
    are equal when the two readings are. *)
Theorem timestamps_are_two_clock_readings tests w :
  valid_datetime (clock w (ticks w)) ->
  valid_datetime (clock w (S (ticks w))) ->
  exists ts w',
    new_test_set tests w = (Returned ts, w') /\
    createdAt ts = isoformat (clock w (ticks w)) +:+ "Z" /\
    updatedAt ts = isoformat (clock w (S (ticks w))) +:+ "Z" /\
    iso8601_utc_z (createdAt ts) = true /\
    iso8601_utc_z (updatedAt ts) = true /\
    (clock w (ticks w) = clock w (S (ticks w)) -> createdAt ts = updatedAt ts).
Proof.
  intros H1 H2. do 2 eexists. split; [reflexivity|]. simpl.
  split_and!; try done; try by apply isoformat_shape.
  by intros ->.
Qed.

Lemma timestamps_are_two_clock_readings_witness :
  exists ts w',
    new_test_set (build_tests df_gap) (fresh_world df_gap) = (Returned ts, w') /\
    createdAt ts = isoformat (sample_clock 0) +:+ "Z" /\
    updatedAt ts = isoformat (sample_clock 1) +:+ "Z" /\
    iso8601_utc_z (createdAt ts) = true /\
    iso8601_utc_z (updatedAt ts) = true /\
    (sample_clock 0 = sample_clock 1 -> createdAt ts = updatedAt ts).
Proof.
  apply (timestamps_are_two_clock_readings (build_tests df_gap)
           (fresh_world df_gap)); unfold valid_datetime; simpl; lia.
Defined.

(** C4 as stated fails: with a clock that has moved on by a microsecond
    between the two readings, the two fields of the assembled TestSet
    differ. *)
Lemma timestamps_differ_when_clock_moves :
  exists ts w',
    new_test_set (build_tests df_gap) (fresh_world df_gap) = (Returned ts, w') /\
    createdAt ts = "2025-01-15T09:30:00.250000Z" /\
    updatedAt ts = "2025-01-15T09:30:00.250001Z" /\
    createdAt ts <> updatedAt ts.
Proof. do 2 eexists. split; [reflexivity|]. vm_compute. split_and!; done. Qed.

(** ** The theorems at sample inputs *)

Lemma persisted_length_counts_truthy_rows_witness :
  let w := used_world df_gap in
  let w' := snd (main sample_dumps w) in
  db w' !! PAYLOAD_KEY = Some (RString (sample_dumps (test_set_of w df_gap))) /\
  length (tests (test_set_of w df_gap)) = truthy_rows (rows df_gap) /\
  last (stdout w') =
    Some (SuccessfullyImported (truthy_rows (rows df_gap)) TEST_SET_ID).
Proof.
  exact (persisted_length_counts_truthy_rows sample_dumps
           (used_world df_gap) df_gap eq_refl eq_refl I).
Defined.

(** C3 as stated fails: the one row of [df_zero] has a question and an
    answer that are present and non-empty, the run reaches the store,
    and the persisted [tests] are empty. *)
Lemma persisted_length_misses_zero_answer :
  let w := fresh_world df_zero in
  let w' := snd (main sample_dumps w) in
  fst (main sample_dumps w) = Returned tt /\
  db w' !! PAYLOAD_KEY = Some (RString (sample_dumps (test_set_of w df_zero))) /\
  length (tests (test_set_of w df_zero)) = 0%nat /\
  non_empty_rows (rows df_zero) = 1%nat /\
  length (tests (test_set_of w df_zero)) <> non_empty_rows (rows df_zero).
Proof. vm_compute. split_and!; done. Qed.

Lemma load_failure_sends_nothing_witness :
  fst (main sample_dumps world_without_file) = Returned tt /\
  wire (snd (main sample_dumps world_without_file)) = wire world_without_file /\
  db (snd (main sample_dumps world_without_file)) = db world_without_file.
Proof.
  exact (load_failure_sends_nothing sample_dumps world_without_file
           (ParquetError "no such file") eq_refl).
Defined.

Lemma ping_failure_writes_nothing_witness :
  let w' := snd (main sample_dumps world_unreachable) in
  db w' = db world_unreachable /\
  db w' !! PAYLOAD_KEY = db world_unreachable !! PAYLOAD_KEY /\
  (wire w' = wire world_unreachable \/
   wire w' = wire world_unreachable ++ [PING]).
Proof.
  exact (ping_failure_writes_nothing sample_dumps world_unreachable
           ConnectionError eq_refl).
Defined.

Lemma rerun_is_idempotent_witness :
  let w0 := used_world df_gap in
  let w1 := snd (main sample_dumps w0) in
  let w2 := snd (main sample_dumps w1) in
  fst (main sample_dumps w0) = Returned tt /\
  fst (main sample_dumps w1) = Returned tt /\
  db w2 !! INDEX_KEY = db w1 !! INDEX_KEY /\
  (exists s, db w2 !! INDEX_KEY = Some (RSet s) /\
             length (filter (fun m => m = "GSM8k") (elements s)) = 1%nat) /\
  db w2 !! PAYLOAD_KEY = Some (RString (sample_dumps (test_set_of w1 df_gap))) /\
  db w2 = <[PAYLOAD_KEY := RString (sample_dumps (test_set_of w1 df_gap))]> (db w1).
Proof.
  exact (rerun_is_idempotent sample_dumps (used_world df_gap) df_gap
           eq_refl eq_refl I).
Defined.

Lemma run_touches_two_keys_witness :
  let w := used_world df_gap in
  let w' := snd (main sample_dumps w) in
  fst (main sample_dumps w) = Returned tt /\
  wire w' = wire w ++
    [PING; SADD "sz:test_sets" "GSM8k";
     SET "sz:test_set:GSM8k" (sample_dumps (test_set_of w df_gap))] /\
  db w' !! "sz:test_sets" =
    Some (RSet (smembers (db w) "sz:test_sets" ∪ {[ "GSM8k" ]})) /\
  db w' !! "sz:test_set:GSM8k" =
    Some (RString (sample_dumps (test_set_of w df_gap))) /\
  forall k, k <> "sz:test_sets" -> k <> "sz:test_set:GSM8k" ->
            db w' !! k = db w !! k.
Proof.
  exact (run_touches_two_keys sample_dumps (used_world df_gap) df_gap
           eq_refl eq_refl I).
Defined.


(** * Further properties of the transform pass *)

Lemma build_tests_app cols rs rs' :
  build_tests (mkDataFrame cols (rs ++ rs')) =
  build_tests (mkDataFrame cols rs) ++
  omap case_of (imap (fun i row => (Z.of_nat (length rs + i), row)) rs').
Proof.
  rewrite !build_tests_omap. unfold iterrows; simpl.
  by rewrite imap_app, omap_app.
Qed.

Lemma elem_of_build_tests_lt cols rs t :
  t ∈ build_tests (mkDataFrame cols rs) ->
  exists i row, (i < length rs)%nat /\ rs !! i = Some row /\
                skip_row row = false /\ t = case_at i row.
Proof.
  intros (i & row & Hi & Hk & Ht)%elem_of_build_tests.
  exists i, row. split_and!; try done. by eapply lookup_lt_Some.
Qed.

Lemma length_filter_all {A} (P : A -> Prop) `{!forall x, Decision (P x)}
    (l : list A) :
  length (filter P l) = length l <-> Forall P l.
Proof.
  induction l as [|x l IH]; [by split|].
  rewrite filter_cons. case_decide as HP; simpl.
  - rewrite Forall_cons. split.
    + intros Hlen. split; [done|]. apply IH. lia.
    + intros [_ Hall]. f_equal. by apply IH.
  - split.
    + intros Hlen. pose proof (length_filter P l). lia.
    + intros [? _]%Forall_cons. done.
Qed.

(** X3: every record of [tests] has a prompt and an expected response
    that are true in Python's sense, and no expected activations. *)
Theorem every_case_is_truthy df t :
  t ∈ build_tests df ->
  Py.truthy (prompt t) = true /\
  Py.truthy (expectedResponse t) = true /\
  expectedActivations t = [].
Proof.
  destruct df as [cols rs].
  intros (i & row & _ & Hk & ->)%elem_of_build_tests.
  rewrite skip_row_truthy in Hk. apply negb_false_iff, andb_true_iff in Hk.
  by destruct Hk.
Qed.

(** X4: [tests] never has more records than the frame has rows, and has
    as many exactly when no row is dropped. *)
Theorem no_more_tests_than_rows df :
  (length (build_tests df) <= len_df df)%nat /\
  (length (build_tests df) = len_df df <->
   forall row, row ∈ rows df -> skip_row row = false).
Proof.
  rewrite length_build_tests. unfold kept, len_df. split.
  - apply length_filter.
  - rewrite length_filter_all. apply Forall_forall.
Qed.

(** X6: rows added at the end of the file leave the records of the rows
    before them as they were: the old [tests] is a prefix of the new. *)
Theorem appended_rows_keep_earlier_records cols rs rs' :
  build_tests (mkDataFrame cols rs) `prefix_of`
  build_tests (mkDataFrame cols (rs ++ rs')).
Proof. rewrite build_tests_app. by eexists. Qed.

(** X7: on a frame whose question and answer cells hold a text or
    nothing, [tests] has as many records as there are rows with both
    fields present and non-empty. *)
Theorem text_frame_counts_non_empty_rows df :
  (forall row, row ∈ rows df ->
     text_or_none (get row "question") /\ text_or_none (get row "answer")) ->
  length (build_tests df) = non_empty_rows (rows df).
Proof.
  intros Htext. rewrite length_build_tests, kept_truthy_rows.
  unfold truthy_rows, non_empty_rows. destruct df as [cols rs]; simpl in *.
  induction rs as [|r rs IH]; [done|].
  rewrite !filter_cons.
  destruct (Htext r) as [Hq Ha]; [by left|].
  rewrite (truthy_non_empty_text _ Hq), (truthy_non_empty_text _ Ha).
  case_decide; simpl; rewrite IH; try done;
    intros row Hrow; apply Htext; by right.
Qed.


(** * Further properties of the run *)

Lemma printed_after w d n out sent : printed w (after w d n out sent) = out.
Proof. unfold printed; simpl. apply drop_app_length. Qed.

Lemma sent_after w d n out sent : sent_commands w (after w d n out sent) = sent.
Proof. unfold sent_commands; simpl. apply drop_app_length. Qed.

Section RunShapes.

Variable json_dumps : TestSet -> string.

(** The four courses of a run, each with the world it ends in. *)

Lemma run_load_failure w e :
  fst (read_parquet PARQUET_FILE w) = Raised e ->
  main json_dumps w =
  (Returned tt,
   after w (db w) (ticks w)
     [Reading PARQUET_FILE; ErrorReadingParquet e] []).
Proof.
  unfold_run. unfold after.
  destruct (files w !! PARQUET_FILE) as [[df|]|]; simpl; intros He;
    simplify_eq; by rewrite app_nil_r, <- app_assoc.
Qed.

Lemma run_ping_failure w df :
  loads w df -> redis_link w <> Up ->
  main json_dumps w =
  match redis_link w with
  | Unreachable =>
      (Returned tt,
       after w (db w) (ticks w)
         [Reading PARQUET_FILE; LoadedRows (len_df df); Columns (columns df);
          FailedToConnect] [PING])
  | _ =>
      (Raised (ResponseError "NOPERM"),
       after w (db w) (ticks w)
         [Reading PARQUET_FILE; LoadedRows (len_df df); Columns (columns df)]
         [PING])
  end.
Proof.
  intros Hload Hdown. unfold loads in Hload. unfold_run. unfold after.
  rewrite Hload; simpl.
  destruct (redis_link w) eqn:Hl; [done|..]; simpl; by rewrite <- !app_assoc.
Qed.

Lemma run_wrongtype w df :
  loads w df -> redis_link w = Up -> ~ takes_sadd (db w) INDEX_KEY ->
  main json_dumps w =
  (Raised (ResponseError "WRONGTYPE"),
   after w (db w) (S (S (ticks w)))
     [Reading PARQUET_FILE; LoadedRows (len_df df); Columns (columns df);
      ConnectedToRedis]
     [PING; SADD INDEX_KEY TEST_SET_ID]).
Proof.
  intros Hload Hup Hidx. unfold loads in Hload. unfold takes_sadd in Hidx.
  unfold_run. unfold after. rewrite Hload; simpl. rewrite Hup; simpl.
  destruct (db w !! INDEX_KEY) as [[s|s|l]|] eqn:Hd; try done; simpl;
    by rewrite <- !app_assoc.
Qed.

Lemma run_success w df :
  loads w df -> redis_link w = Up -> takes_sadd (db w) INDEX_KEY ->
  main json_dumps w =
  (Returned tt,
   after w (imported (db w) (json_dumps (test_set_of w df))) (S (S (ticks w)))
     [Reading PARQUET_FILE; LoadedRows (len_df df); Columns (columns df);
      ConnectedToRedis;
      SuccessfullyImported (length (build_tests df)) TEST_SET_ID]
     [PING; SADD INDEX_KEY TEST_SET_ID;
      SET PAYLOAD_KEY (json_dumps (test_set_of w df))]).
Proof.
  intros Hload Hup Hidx. unfold loads in Hload. unfold takes_sadd in Hidx.
  unfold_run. unfold after, imported, smembers, test_set_of.
  rewrite Hload; simpl. rewrite Hup; simpl.
  destruct (db w !! INDEX_KEY) as [[s|s|l]|] eqn:Hd; try done; simpl;
    rewrite <- ?app_assoc; [done|].
  by rewrite (left_id_L ∅ (∪)).
Qed.

(** Every run takes one of the four courses. *)
Lemma run_cases w :
  (exists e, fst (read_parquet PARQUET_FILE w) = Raised e) \/
  (exists df, loads w df /\ redis_link w <> Up) \/
  (exists df, loads w df /\ redis_link w = Up /\ ~ takes_sadd (db w) INDEX_KEY) \/
  (exists df, loads w df /\ redis_link w = Up /\ takes_sadd (db w) INDEX_KEY).
Proof.
  destruct (loads_or_raises w) as [[df Hload]|He]; [|by left].
  right. destruct (decide (redis_link w = Up)) as [Hup|Hdown]; [|by eauto].
  right. destruct (decide (takes_sadd (db w) INDEX_KEY)); eauto.
Qed.

(** X8: when the index key holds a value that is no set, [SADD] is
    refused and the exception leaves [main]: the payload key is not
    written, the keyspace stays as it was and no success line is
    printed. *)
Theorem wrongtype_index_aborts_before_payload w df :
  loads w df -> redis_link w = Up -> ~ takes_sadd (db w) INDEX_KEY ->
  let w' := snd (main json_dumps w) in
  (exists msg, fst (main json_dumps w) = Raised (ResponseError msg)) /\
  db w' = db w /\
  sent_commands w w' = [PING; SADD "sz:test_sets" "GSM8k"] /\
  printed w w' =
    [Reading PARQUET_FILE; LoadedRows (len_df df); Columns (columns df);
     ConnectedToRedis].
Proof.
  intros Hload Hup Hidx. rewrite (run_wrongtype w df) by done; simpl.
  rewrite printed_after, sent_after. eauto.
Qed.

(** X9: only [redis.ConnectionError], with its subclasses, is caught at
    the ping. When the ping is refused with a reply that the client
    raises as a [redis.ResponseError], such as NOPERM, the exception
    leaves [main], after the three lines of the load and without the
    line of a failed connection. *)
Theorem refused_ping_is_not_caught w df :
  loads w df -> redis_link w = Refusing ->
  let w' := snd (main json_dumps w) in
  (exists msg, fst (main json_dumps w) = Raised (ResponseError msg)) /\
  db w' = db w /\
  printed w w' =
    [Reading PARQUET_FILE; LoadedRows (len_df df); Columns (columns df)].
Proof.
  intros Hload Hl. rewrite (run_ping_failure w df) by (done || congruence).
  rewrite Hl; simpl. rewrite printed_after. eauto.
Qed.

(** X10: when the server cannot be reached, [main] returns as after a
    success, with no exception: it has printed the three lines of the
    load and the line of the failed connection, and has not read the
    clock. *)
Theorem unreachable_server_returns_quietly w df :
  loads w df -> redis_link w = Unreachable ->
  let w' := snd (main json_dumps w) in
  fst (main json_dumps w) = Returned tt /\
  printed w w' =
    [Reading PARQUET_FILE; LoadedRows (len_df df); Columns (columns df);
     FailedToConnect] /\
  ticks w' = ticks w.
Proof.
  intros Hload Hl. rewrite (run_ping_failure w df) by (done || congruence).
  rewrite Hl; simpl. by rewrite printed_after.
Qed.

(** X12: what a run sends is a beginning of [PING], [SADD] of the
    identifier to the index key, [SET] of the payload key: never a write
    before the ping, never the payload before the index, nothing after
    the payload. *)
Theorem commands_follow_the_protocol w :
  exists v,
    sent_commands w (snd (main json_dumps w)) `prefix_of`
    [PING; SADD "sz:test_sets" "GSM8k"; SET "sz:test_set:GSM8k" v].
Proof.
  destruct (run_cases w)
    as [[e He]|[(df & Hl & Hd)|[(df & Hl & Hu & Hi)|(df & Hl & Hu & Hi)]]].
  - rewrite (run_load_failure w e He); simpl. rewrite sent_after.
    exists "". apply prefix_nil.
  - rewrite (run_ping_failure w df Hl Hd). exists "".
    destruct (redis_link w); [done|..]; simpl; rewrite sent_after;
      by eexists [_; _].
  - rewrite (run_wrongtype w df Hl Hu Hi); simpl. rewrite sent_after.
    exists "". by eexists [_].
  - rewrite (run_success w df Hl Hu Hi); simpl. rewrite sent_after.
    eexists. done.
Qed.

(** X13: no run, whatever its course, changes a key other than the index
    key and the payload key. *)
Theorem other_keys_stay_in_every_run w k :
  k <> "sz:test_sets" -> k <> "sz:test_set:GSM8k" ->
  db (snd (main json_dumps w)) !! k = db w !! k.
Proof.
  intros Hi Hp.
  destruct (run_cases w)
    as [[e He]|[(df & Hl & Hd)|[(df & Hl & Hu & Hx)|(df & Hl & Hu & Hx)]]].
  - by rewrite (run_load_failure w e He).
  - rewrite (run_ping_failure w df Hl Hd). by destruct (redis_link w).
  - by rewrite (run_wrongtype w df Hl Hu Hx).
  - rewrite (run_success w df Hl Hu Hx); simpl. unfold imported.
    by rewrite !lookup_insert_ne.
Qed.

(** X14: no run takes a member out of the index set: the identifiers of
    other test sets registered before the run are registered after it. *)
Theorem index_never_loses_a_member w :
  smembers (db w) "sz:test_sets" ⊆
  smembers (db (snd (main json_dumps w))) "sz:test_sets".
Proof.
  destruct (run_cases w)
    as [[e He]|[(df & Hl & Hd)|[(df & Hl & Hu & Hx)|(df & Hl & Hu & Hx)]]].
  - by rewrite (run_load_failure w e He).
  - rewrite (run_ping_failure w df Hl Hd). by destruct (redis_link w).
  - by rewrite (run_wrongtype w df Hl Hu Hx).
  - rewrite (run_success w df Hl Hu Hx); simpl. unfold imported.
    unfold smembers at 2. rewrite lookup_insert_ne by done.
    rewrite lookup_insert_eq. apply union_subseteq_l.
Qed.

(** X15: in a run that reaches the store, the number of the line
    [LoadedRows] is the number of the line of success plus the number of
    dropped rows: the two printed counts differ exactly by the rows that
    were passed over without a message. *)
Theorem printed_counts_differ_by_skipped_rows w df :
  loads w df -> redis_link w = Up -> takes_sadd (db w) INDEX_KEY ->
  exists loaded imported_count,
    printed w (snd (main json_dumps w)) =
      [Reading PARQUET_FILE; LoadedRows loaded; Columns (columns df);
       ConnectedToRedis; SuccessfullyImported imported_count "GSM8k"] /\
    loaded = (imported_count + skipped_before (length (rows df)) (rows df))%nat.
Proof.
  intros Hload Hup Hidx. rewrite (run_success w df) by done; simpl.
  rewrite printed_after. do 2 eexists. split; [done|].
  rewrite length_build_tests. unfold len_df. by rewrite kept_skipped.
Qed.


End RunShapes.

(** * Further properties of the timestamps *)

Lemma length_digits_go width x s :
  String.length (digits_go width x s) = (width + String.length s)%nat.
Proof.
  revert x s. induction width as [|width IH]; intros x s; [done|].
  simpl digits_go. rewrite IH. simpl. lia.
Qed.

Lemma digits_go_inj width x y s s' :
  (x < 10 ^ N.of_nat width)%N -> (y < 10 ^ N.of_nat width)%N ->
  digits_go width x s = digits_go width y s' ->
  String.length s = String.length s' ->
  x = y /\ s = s'.
Proof.
  revert x y s s'. induction width as [|width IH]; intros x y s s' Hx Hy Heq Hlen.
  - simpl in *. split; [lia|done].
  - rewrite Nat2N.inj_succ, N.pow_succ_r' in Hx, Hy. simpl digits_go in Heq.
    apply IH in Heq as [Hdiv [= Hchar ->]].
    + split; [|done].
      apply pretty_N_char_inj in Hchar; [|by apply N.mod_lt..].
      rewrite (N.div_mod x 10), (N.div_mod y 10) by done. lia.
    + apply N.Div0.div_lt_upper_bound. lia.
    + apply N.Div0.div_lt_upper_bound. lia.
    + simpl. by rewrite Hlen.
Qed.

Lemma length_append a b :
  String.length (a +:+ b) = (String.length a + String.length b)%nat.
Proof.
  induction a as [|c a IH]; [done|].
  rewrite append_String. simpl. by rewrite IH.
Qed.

Lemma append_inj_length a a' b b' :
  String.length a = String.length a' ->
  a +:+ b = a' +:+ b' -> a = a' /\ b = b'.
Proof.
  revert a'. induction a as [|c a IH]; intros [|c' a'] Hlen Heq; try done.
  rewrite !append_String in Heq. injection Heq as -> Heq.
  destruct (IH a') as [-> ->]; [by injection Hlen|done|done].
Qed.

Lemma append_inj_r a a' b : a +:+ b = a' +:+ b -> a = a'.
Proof.
  intros Heq. apply (append_inj_length a a' b b); [|done].
  apply (f_equal String.length) in Heq. rewrite !length_append in Heq. lia.
Qed.

(** Two datetimes with the same [isoformat] text are the same. *)
Lemma isoformat_inj t1 t2 :
  valid_datetime t1 -> valid_datetime t2 ->
  isoformat t1 = isoformat t2 -> t1 = t2.
Proof.
  intros (Hy1 & Hm1 & Hd1 & Hh1 & Hmi1 & Hs1 & Hus1)
         (Hy2 & Hm2 & Hd2 & Hh2 & Hmi2 & Hs2 & Hus2).
  unfold isoformat.
  rewrite (fmt_0d_digits 4 (year t1)), (fmt_0d_digits 2 (month t1)),
    (fmt_0d_digits 2 (day t1)), (fmt_0d_digits 2 (hour t1)),
    (fmt_0d_digits 2 (minute t1)), (fmt_0d_digits 2 (second t1)),
    (fmt_0d_digits 4 (year t2)), (fmt_0d_digits 2 (month t2)),
    (fmt_0d_digits 2 (day t2)), (fmt_0d_digits 2 (hour t2)),
    (fmt_0d_digits 2 (minute t2)), (fmt_0d_digits 2 (second t2))
    by (simpl; lia).
  intros Heq.
  repeat (apply append_inj_length in Heq as [? Heq];
          [|by rewrite ?length_digits_go]).
  repeat match goal with
         | H : digits_go _ _ _ = digits_go _ _ _ |- _ =>
             apply digits_go_inj in H as [? _]; [|simpl; lia..|done]
         end.
  assert (microsecond t1 = microsecond t2) as Hus.
  { destruct (microsecond t1 =? 0)%N eqn:E1, (microsecond t2 =? 0)%N eqn:E2.
    - apply N.eqb_eq in E1, E2. congruence.
    - by rewrite append_String in Heq.
    - by rewrite append_String in Heq.
    - rewrite !(fmt_0d_digits 6) in Heq by (simpl; lia).
      apply append_inj_length in Heq as [_ Heq]; [|done].
      by apply digits_go_inj in Heq as [? _]; [|simpl; lia..|done]. }
  destruct t1, t2; simpl in *. by subst.
Qed.

(** X17: with readings in the ranges of the [datetime] class, the
    TestSet has equal [createdAt] and [updatedAt] exactly when the two
    readings of the clock are equal: a clock that moved between the two
    calls always shows in the record. *)
Theorem timestamps_equal_iff_readings_equal tests w :
  valid_datetime (clock w (ticks w)) ->
  valid_datetime (clock w (S (ticks w))) ->
  exists ts w',
    new_test_set tests w = (Returned ts, w') /\
    (createdAt ts = updatedAt ts <->
     clock w (ticks w) = clock w (S (ticks w))).
Proof.
  intros H1 H2. do 2 eexists. split; [reflexivity|]. simpl. split.
  - intros Heq%append_inj_r. by apply isoformat_inj.
  - by intros ->.
Qed.

(** ** The further properties at sample inputs *)

(** Goes through the members of a list given in full. *)
Ltac each_member H :=
  repeat (apply elem_of_cons in H as [->|H]; [|]);
  [..|by apply elem_of_nil in H].

Lemma every_case_is_truthy_witness :
  let t := test_case 2 (Py.Str "Q2") (Py.Str "A2") in
  Py.truthy (prompt t) = true /\
  Py.truthy (expectedResponse t) = true /\
  expectedActivations t = [].
Proof.
  apply (every_case_is_truthy df_gap).
  apply (list_elem_of_lookup_2 _ 1%nat). reflexivity.
Defined.

Lemma text_frame_counts_non_empty_rows_witness :
  length (build_tests df_gap) = non_empty_rows (rows df_gap).
Proof.
  apply text_frame_counts_non_empty_rows.
  intros row Hrow. each_member Hrow;
    (split; first [left; reflexivity | right; eexists; reflexivity]).
Defined.

Lemma wrongtype_index_aborts_before_payload_witness :
  let w := world_wrongtype in
  let w' := snd (main sample_dumps w) in
  (exists msg, fst (main sample_dumps w) = Raised (ResponseError msg)) /\
  db w' = db w /\
  sent_commands w w' = [PING; SADD "sz:test_sets" "GSM8k"] /\
  printed w w' =
    [Reading PARQUET_FILE; LoadedRows (len_df df_gap); Columns (columns df_gap);
     ConnectedToRedis].
Proof.
  exact (wrongtype_index_aborts_before_payload sample_dumps world_wrongtype
           df_gap eq_refl eq_refl (fun H : False => H)).
Defined.

Lemma refused_ping_is_not_caught_witness :
  let w := world_refusing in
  let w' := snd (main sample_dumps w) in
  (exists msg, fst (main sample_dumps w) = Raised (ResponseError msg)) /\
  db w' = db w /\
  printed w w' =
    [Reading PARQUET_FILE; LoadedRows (len_df df_gap); Columns (columns df_gap)].
Proof.
  exact (refused_ping_is_not_caught sample_dumps world_refusing df_gap
           eq_refl eq_refl).
Defined.

Lemma unreachable_server_returns_quietly_witness :
  let w := world_unreachable in
  let w' := snd (main sample_dumps w) in
  fst (main sample_dumps w) = Returned tt /\
  printed w w' =
    [Reading PARQUET_FILE; LoadedRows (len_df df_gap); Columns (columns df_gap);
     FailedToConnect] /\
  ticks w' = ticks w.
Proof.
  exact (unreachable_server_returns_quietly sample_dumps world_unreachable
           df_gap eq_refl eq_refl).
Defined.

Lemma other_keys_stay_in_every_run_witness :
  db (snd (main sample_dumps (used_world df_gap))) !! "sz:test_set:MMLU" =
  db (used_world df_gap) !! "sz:test_set:MMLU".
Proof.
  apply (other_keys_stay_in_every_run sample_dumps (used_world df_gap));
    discriminate.
Defined.

Lemma printed_counts_differ_by_skipped_rows_witness :
  exists loaded imported_count,
    printed (used_world df_gap) (snd (main sample_dumps (used_world df_gap))) =
      [Reading PARQUET_FILE; LoadedRows loaded; Columns (columns df_gap);
       ConnectedToRedis; SuccessfullyImported imported_count "GSM8k"] /\
    loaded = (imported_count + skipped_before (length (rows df_gap)) (rows df_gap))%nat.
Proof.
  exact (printed_counts_differ_by_skipped_rows sample_dumps
           (used_world df_gap) df_gap eq_refl eq_refl I).
Defined.


Lemma timestamps_equal_iff_readings_equal_witness :
  exists ts w',
    new_test_set (build_tests df_gap) (fresh_world df_gap) = (Returned ts, w') /\
    (createdAt ts = updatedAt ts <-> sample_clock 0 = sample_clock 1).
Proof.
  apply (timestamps_equal_iff_readings_equal (build_tests df_gap)
           (fresh_world df_gap)); unfold valid_datetime; simpl; lia.
Defined.

(** * The pass over a frame with index labels and missing cells *)

Lemma labelled_loop_app it1 it2 acc :
  Labelled.transform_loop (it1 ++ it2) acc =
  match Labelled.transform_loop it1 acc with
  | Returned tests => Labelled.transform_loop it2 tests
  | Raised e => Raised e
  end.
Proof.
  revert acc. induction it1 as [|[index row] it1 IH]; intros acc; simpl; [done|].
  destruct (Labelled.body index row) as [[tc|]|e]; by rewrite ?IH.
Qed.

Lemma labelled_loop_acc it acc :
  Labelled.transform_loop it acc =
  match Labelled.transform_loop it [] with
  | Returned recs => Returned (acc ++ recs)
  | Raised e => Raised e
  end.
Proof.
  revert acc. induction it as [|[index row] it IH]; intros acc; simpl.
  - by rewrite app_nil_r.
  - destruct (Labelled.body index row) as [[tc|]|e]; [|by rewrite IH|done].
    rewrite (IH (acc ++ [tc])), (IH [tc]).
    destruct (Labelled.transform_loop it []); [|done].
    by rewrite <- app_assoc.
Qed.

(** A pass that returns has gone over the rows before position [i], over
    row [i] and over the rows after it, each without raising; [tests] is
    what the three gave, in that order. *)
Lemma labelled_loop_split it i p tests :
  it !! i = Some p ->
  Labelled.transform_loop it [] = Returned tests ->
  exists before o after,
    Labelled.transform_loop (take i it) [] = Returned before /\
    Labelled.body p.1 p.2 = Returned o /\
    Labelled.transform_loop (drop (S i) it) [] = Returned after /\
    tests = before ++ option_list o ++ after.
Proof.
  intros Hi Hrun. rewrite <- (take_drop_middle it i p Hi) in Hrun.
  rewrite labelled_loop_app in Hrun.
  destruct (Labelled.transform_loop (take i it) []) as [before|e]; [|done].
  destruct p as [index row]. simpl in Hrun.
  destruct (Labelled.body index row) as [[tc|]|e] eqn:Hb; [| |done];
    rewrite labelled_loop_acc in Hrun;
    destruct (Labelled.transform_loop (drop (S i) it) []) as [after|e];
    simplify_eq; do 3 eexists; split_and!; try done.
  by rewrite <- app_assoc.
Qed.


(** The pass appends for a row exactly when the label is an integer and
    both cells are scalars that are true. *)
Lemma labelled_body_appends index row tc :
  Labelled.body index row = Returned (Some tc) <->
  exists n q a,
    index = Labelled.IntLabel n /\
    Labelled.get row "question" = Labelled.Val q /\
    Labelled.get row "answer" = Labelled.Val a /\
    Py.truthy q = true /\ Py.truthy a = true /\
    tc = Labelled.record n q a.
Proof.
  unfold Labelled.body, Labelled.test_case, Py.not_. split.
  - destruct (Labelled.get row "question") as [q|]; [|done].
    destruct (Py.truthy q) eqn:Hq; [|done]. simpl.
    destruct (Labelled.get row "answer") as [a|]; [|done].
    destruct (Py.truthy a) eqn:Ha; [|done]. simpl.
    destruct index as [n|s]; [|done]. simpl. intros [= <-].
    by exists n, q, a.
  - intros (n & q & a & -> & -> & -> & Hq & Ha & ->).
    by rewrite Hq, Ha.
Qed.

(** It goes on without a record exactly when the question is a false
    scalar, or a true one with an answer that is a false scalar. *)
Lemma labelled_body_skips index row :
  Labelled.body index row = Returned None <->
  exists q, Labelled.get row "question" = Labelled.Val q /\
    (Py.truthy q = false \/
     exists a, Labelled.get row "answer" = Labelled.Val a /\
               Py.truthy a = false).
Proof.
  unfold Labelled.body, Labelled.test_case, Py.not_. split.
  - destruct (Labelled.get row "question") as [q|]; [|done].
    destruct (Py.truthy q) eqn:Hq; [|by eauto]. simpl.
    destruct (Labelled.get row "answer") as [a|]; [|done].
    destruct (Py.truthy a) eqn:Ha; [|by eauto 6]. simpl.
    by destruct index.
  - intros (q & -> & [Hq | (a & -> & Ha)]).
    + by rewrite Hq.
    + destruct (Py.truthy q); [|done]. simpl. by rewrite Ha.
Qed.




(** ** The frame without a stored index *)

Lemma labelled_get_scalar (row : Series) key :
  Labelled.get (Labelled.Val <$> row) key = Labelled.Val (get row key).
Proof.
  unfold Labelled.get, get. rewrite lookup_fmap. by destruct (row !! key).
Qed.

Lemma labelled_body_scalar n (row : Series) :
  Labelled.body (Labelled.IntLabel n) (Labelled.Val <$> row) =
  Returned (case_of (n, row)).
Proof.
  unfold Labelled.body, case_of, skip_row. rewrite !labelled_get_scalar.
  destruct (Py.not_ (get row "question")); [done|].
  by destruct (Py.not_ (get row "answer")).
Qed.

Lemma iterrows_with_default_index df :
  Labelled.iterrows (with_default_index df) =
  (fun p : Z * Series =>
     (Labelled.IntLabel p.1, (Labelled.Val <$> p.2 : Labelled.Series)))
    <$> iterrows df.
Proof.
  unfold Labelled.iterrows, with_default_index, default_index, iterrows; simpl.
  generalize (rows df) as rs. intros rs.
  change (fun i row => (Z.of_nat i, row))
    with (fun i (row : Series) => (Z.of_nat (0 + i), row)).
  generalize 0%nat as k. induction rs as [|r rs IH]; intros k; [done|].
  simpl. rewrite Nat.add_0_r. f_equal. rewrite IH. f_equal.
  apply imap_ext. intros i x _. simpl. f_equal. lia.
Qed.

(** On a frame without a stored index and with scalar cells, the general
    pass returns what [build_tests] computes. *)
Lemma build_tests_with_default_index df :
  Labelled.build_tests (with_default_index df) = Returned (build_tests df).
Proof.
  unfold Labelled.build_tests, build_tests.
  rewrite iterrows_with_default_index.
  generalize (iterrows df) as it. generalize (@nil TestCase) as acc.
  intros acc it. revert acc.
  induction it as [|[n row] it IH]; intros acc; [done|].
  simpl. rewrite labelled_body_scalar. unfold case_of.
  fold (skip_row row). destruct (skip_row row); by rewrite IH.
Qed.

Lemma label_with_default_index df i row :
  rows df !! i = Some row ->
  Labelled.iterrows (with_default_index df) !! i =
  Some (Labelled.IntLabel (Z.of_nat i), (Labelled.Val <$> row : Labelled.Series)).
Proof.
  intros Hi. rewrite iterrows_with_default_index, list_lookup_fmap.
  unfold iterrows. by rewrite list_lookup_imap, Hi.
Qed.

(** ** C1 *)

(** C1, as amended: in a pass that returns, a row whose question and
    answer are scalars true in Python's sense and whose index label is
    the integer [n] contributes exactly one record to [tests], between
    the records of the rows before it and those of the rows after it:
    the one with identifier ["GSM8k-T{n}"], name ["GSM8k #{n+1}"], the
    question as prompt, the answer as expected response and no expected
    activations. The label is what [read_parquet] restores for the row;
    for a file that stores no index it is the zero-based position. *)
Theorem truthy_row_yields_one_case_under_its_label :
  (forall df i n row q a tests,
     Labelled.iterrows df !! i = Some (Labelled.IntLabel n, row) ->
     Labelled.get row "question" = Labelled.Val q ->
     Labelled.get row "answer" = Labelled.Val a ->
     Py.truthy q = true -> Py.truthy a = true ->
     Labelled.build_tests df = Returned tests ->
     exists before after,
       Labelled.transform_loop (take i (Labelled.iterrows df)) [] = Returned before /\
       Labelled.transform_loop (drop (S i) (Labelled.iterrows df)) [] = Returned after /\
       tests = before ++
               [ {| tc_id := "GSM8k-T" +:+ pretty n;
                    tc_name := "GSM8k #" +:+ pretty (n + 1);
                    prompt := q;
                    expectedActivations := [];
                    expectedResponse := a |} ] ++ after) /\
  (forall df i row,
     rows df !! i = Some row ->
     Labelled.iterrows (with_default_index df) !! i =
       Some (Labelled.IntLabel (Z.of_nat i),
             (Labelled.Val <$> row : Labelled.Series)) /\
     Labelled.build_tests (with_default_index df) = Returned (build_tests df)).
Proof.
  split.
  - intros df i n row q a tests Hi Hq Ha Htq Hta Hrun.
    destruct (labelled_loop_split _ i _ tests Hi Hrun)
      as (before & o & after & Hbefore & Ho & Hafter & ->).
    exists before, after. split_and!; try done.
    assert (Labelled.body (Labelled.IntLabel n) row =
            Returned (Some (Labelled.record n q a))) as Hb.
    { apply labelled_body_appends. by exists n, q, a. }
    simpl in Ho. rewrite Hb in Ho. by simplify_eq.
  - intros df i row Hi. split.
    + by apply label_with_default_index.
    + apply build_tests_with_default_index.
Qed.

Lemma truthy_row_yields_one_case_under_its_label_witness :
  exists before after,
    Labelled.transform_loop (take 2 (Labelled.iterrows df_labels_gap)) [] = Returned before /\
    Labelled.transform_loop (drop 3 (Labelled.iterrows df_labels_gap)) [] = Returned after /\
    [ Labelled.record 10 (Py.Str "Q0") (Py.Str "A0");
      Labelled.record 30 (Py.Str "Q2") (Py.Str "A2") ] =
    before ++
    [ {| tc_id := "GSM8k-T" +:+ pretty 30;
         tc_name := "GSM8k #" +:+ pretty (30 + 1);
         prompt := Py.Str "Q2";
         expectedActivations := [];
         expectedResponse := Py.Str "A2" |} ] ++ after.
Proof.
  assert (Labelled.build_tests df_labels_gap =
          Returned [ Labelled.record 10 (Py.Str "Q0") (Py.Str "A0");
                     Labelled.record 30 (Py.Str "Q2") (Py.Str "A2") ]) as Hrun
    by (by vm_compute).
  exact (proj1 truthy_row_yields_one_case_under_its_label df_labels_gap 2%nat 30
           (qa_cells (Labelled.Val (Py.Str "Q2")) (Labelled.Val (Py.Str "A2")))
           (Py.Str "Q2") (Py.Str "A2") _
           eq_refl eq_refl eq_refl eq_refl eq_refl Hrun).
Defined.

(** C1 as stated fails twice. The third row of [df_labels_gap], at
    position 2, has a question and an answer that are present and
    non-empty, and its record is numbered by the stored label 30, not by
    the position: no record has the identifier [GSM8k-T2]. And the only
    row of [df_zero] has a present, non-empty question and answer and
    gets no record. *)
Lemma stored_label_and_zero_answer_break_the_claim :
  Labelled.iterrows df_labels_gap !! 2%nat =
    Some (Labelled.IntLabel 30,
          qa_cells (Labelled.Val (Py.Str "Q2")) (Labelled.Val (Py.Str "A2"))) /\
  non_empty (Py.Str "Q2") = true /\ non_empty (Py.Str "A2") = true /\
  Labelled.build_tests df_labels_gap =
    Returned
      [ {| tc_id := "GSM8k-T10"; tc_name := "GSM8k #11"; prompt := Py.Str "Q0";
           expectedActivations := []; expectedResponse := Py.Str "A0" |};
        {| tc_id := "GSM8k-T30"; tc_name := "GSM8k #31"; prompt := Py.Str "Q2";
           expectedActivations := []; expectedResponse := Py.Str "A2" |} ] /\
  "GSM8k-T30" <> "GSM8k-T2" /\ "GSM8k-T10" <> "GSM8k-T2" /\
  rows df_zero !! 0%nat = Some (qa_row (Py.Str "What is 3 - 3?") (Py.Int 0)) /\
  non_empty (Py.Str "What is 3 - 3?") = true /\
  non_empty (Py.Int 0) = true /\
  build_tests df_zero = [].
Proof. split_and!; first [reflexivity | discriminate | by vm_compute]. Qed.

(** ** C2 *)




(** ** C9 *)

(** C9, as amended: a row whose question is [None] or the empty text,
    or whose answer is [None] or the empty text while its question is
    not [pd.NA], is passed over without a record and without an error,
    whatever its label: the pass goes on to the next row with [tests] as
    it was, and in a pass that returns [tests] holds the records of the
    other rows only. *)
Theorem none_or_empty_row_is_passed_over index row :
  Labelled.none_or_empty (Labelled.get row "question") \/
  (Labelled.none_or_empty (Labelled.get row "answer") /\
   Labelled.get row "question" <> Labelled.NA) ->
  Labelled.body index row = Returned None /\
  (forall it tests,
     Labelled.transform_loop ((index, row) :: it) tests =
     Labelled.transform_loop it tests) /\
  (forall it i tests,
     it !! i = Some (index, row) ->
     Labelled.transform_loop it [] = Returned tests ->
     exists before after,
       Labelled.transform_loop (take i it) [] = Returned before /\
       Labelled.transform_loop (drop (S i) it) [] = Returned after /\
       tests = before ++ after).
Proof.
  intros Hrow.
  assert (Labelled.body index row = Returned None) as Hb.
  { apply labelled_body_skips.
    destruct Hrow as [[Hq|Hq] | [[Ha|Ha] Hna]].
    - exists Py.None_. split; [done|by left].
    - exists (Py.Str ""). split; [done|by left].
    - destruct (Labelled.get row "question") as [q|]; [|done].
      exists q. split; [done|]. right. by exists Py.None_.
    - destruct (Labelled.get row "question") as [q|]; [|done].
      exists q. split; [done|]. right. by exists (Py.Str ""). }
  split_and!; [done| |].
  - intros it tests. simpl. by rewrite Hb.
  - intros it i tests Hi Hrun.
    destruct (labelled_loop_split _ i _ tests Hi Hrun)
      as (before & o & after & Hbefore & Ho & Hafter & ->).
    simpl in Ho. rewrite Hb in Ho. simplify_eq.
    by exists before, after.
Qed.

Lemma none_or_empty_row_is_passed_over_witness :
  let row := qa_cells (Labelled.Val (Py.Str "Q1")) (Labelled.Val Py.None_) in
  Labelled.body (Labelled.IntLabel 20) row = Returned None /\
  (forall it tests,
     Labelled.transform_loop ((Labelled.IntLabel 20, row) :: it) tests =
     Labelled.transform_loop it tests) /\
  (forall it i tests,
     it !! i = Some (Labelled.IntLabel 20, row) ->
     Labelled.transform_loop it [] = Returned tests ->
     exists before after,
       Labelled.transform_loop (take i it) [] = Returned before /\
       Labelled.transform_loop (drop (S i) it) [] = Returned after /\
       tests = before ++ after).
Proof.
  apply (none_or_empty_row_is_passed_over (Labelled.IntLabel 20)
           (qa_cells (Labelled.Val (Py.Str "Q1")) (Labelled.Val Py.None_))).
  right. split; [left; reflexivity | discriminate].
Defined.

(** C9 as stated fails: the answer of the row of [df_cells_nan] is
    missing, as NaN, and the row gets a record; the question of the row
    of [df_cells_na] is missing, as [pd.NA], its answer is empty, and
    the pass raises. *)
Lemma missing_as_nan_is_kept_and_na_raises :
  Labelled.missing_or_empty (Labelled.Val (Py.Float S754_nan)) /\
  Labelled.build_tests df_cells_nan =
    Returned
      [ {| tc_id := "GSM8k-T0"; tc_name := "GSM8k #1"; prompt := Py.Str "Q";
           expectedActivations := [];
           expectedResponse := Py.Float S754_nan |} ] /\
  Labelled.missing_or_empty Labelled.NA /\
  Labelled.missing_or_empty (Labelled.Val (Py.Str "")) /\
  Labelled.build_tests df_cells_na =
    Raised (TypeError "boolean value of NA is ambiguous").
Proof.
  unfold Labelled.missing_or_empty. split_and!; auto.
Qed.

(** * Further properties of the pass over a labelled frame *)

Lemma id_of_label_inj : Inj (=) (=) (fun n : Z => "GSM8k-T" +:+ pretty n).
Proof. intros n m H. simplify_eq/=. by apply (inj pretty). Qed.

Lemma zip_fst_sublist {A B} (l : list A) (k : list B) :
  (zip l k).*1 `sublist_of` l.
Proof.
  revert k. induction l as [|x l IH]; intros [|y k]; simpl;
    try apply sublist_nil_l. by apply sublist_skip.
Qed.

(** The identifiers of [tests], in their order, are those of integer
    labels picked in order from the labels of the iteration. *)
Lemma labelled_ids_sublist it tests :
  Labelled.transform_loop it [] = Returned tests ->
  exists ns,
    tc_id <$> tests = (fun n : Z => "GSM8k-T" +:+ pretty n) <$> ns /\
    (Labelled.IntLabel <$> ns) `sublist_of` it.*1.
Proof.
  revert tests. induction it as [|[index row] it IH]; intros tests Hrun.
  - simpl in Hrun. simplify_eq. by exists [].
  - simpl in Hrun.
    destruct (Labelled.body index row) as [[tc|]|e] eqn:Hb; [| |done].
    + apply labelled_body_appends in Hb as (n & q & a & -> & _ & _ & _ & _ & ->).
      rewrite labelled_loop_acc in Hrun.
      destruct (Labelled.transform_loop it []) as [recs|]; [|done].
      simplify_eq. destruct (IH recs eq_refl) as (ns & Hids & Hsub).
      exists (n :: ns). split; [|by apply sublist_skip].
      cbn [app]. rewrite !fmap_cons. by rewrite Hids.
    + destruct (IH tests Hrun) as (ns & Hids & Hsub).
      exists ns. split; [done|]. by apply sublist_cons.
Qed.

(** X1: when the index labels of the frame are pairwise distinct, no two
    records of [tests] share an identifier. *)
Theorem distinct_labels_give_distinct_ids df tests :
  Labelled.build_tests df = Returned tests ->
  NoDup (Labelled.index df) ->
  NoDup (tc_id <$> tests).
Proof.
  intros Hrun Hnd.
  destruct (labelled_ids_sublist _ _ Hrun) as (ns & -> & Hsub).
  apply (@NoDup_fmap_2 _ _ _ id_of_label_inj).
  apply (NoDup_fmap_1 Labelled.IntLabel).
  apply (sublist_NoDup _ (Labelled.iterrows df).*1); [|done].
  apply (sublist_NoDup _ (Labelled.index df)); [done|apply zip_fst_sublist].
Qed.

(** X2: the records of [tests] stand in the order of the file: their
    identifiers, in order, are those of integer labels picked in order
    from the index of the frame. *)
Theorem tests_follow_index_order df tests :
  Labelled.build_tests df = Returned tests ->
  exists ns,
    tc_id <$> tests = (fun n : Z => "GSM8k-T" +:+ pretty n) <$> ns /\
    (Labelled.IntLabel <$> ns) `sublist_of` Labelled.index df.
Proof.
  intros Hrun.
  destruct (labelled_ids_sublist _ _ Hrun) as (ns & Hids & Hsub).
  exists ns. split; [done|].
  etrans; [done|]. apply zip_fst_sublist.
Qed.

(** X5: when the pass returns and no row is passed over, [tests] has one
    record for each row, in order: the record at place [k] carries the
    label of row [k] and its two cells. *)
Theorem full_frame_maps_row_by_row df tests :
  Labelled.build_tests df = Returned tests ->
  (forall p, p ∈ Labelled.iterrows df -> Labelled.is_skipped p = false) ->
  Forall2
    (fun p t =>
       exists n q a,
         p.1 = Labelled.IntLabel n /\
         Labelled.get p.2 "question" = Labelled.Val q /\
         Labelled.get p.2 "answer" = Labelled.Val a /\
         t = {| tc_id := "GSM8k-T" +:+ pretty n;
                tc_name := "GSM8k #" +:+ pretty (n + 1);
                prompt := q;
                expectedActivations := [];
                expectedResponse := a |})
    (Labelled.iterrows df) tests.
Proof.
  unfold Labelled.build_tests. generalize (Labelled.iterrows df) as it.
  intros it. revert tests.
  induction it as [|[index row] it IH]; intros tests Hrun Hall.
  - simpl in Hrun. simplify_eq. constructor.
  - simpl in Hrun.
    assert (Labelled.is_skipped (index, row) = false) as Hk
      by (apply Hall; by left).
    unfold Labelled.is_skipped in Hk. simpl in Hk.
    destruct (Labelled.body index row) as [[tc|]|e] eqn:Hb; [|done|done].
    apply labelled_body_appends in Hb as (n & q & a & -> & Hq & Ha & _ & _ & ->).
    rewrite labelled_loop_acc in Hrun.
    destruct (Labelled.transform_loop it []) as [recs|]; [|done].
    simplify_eq. constructor.
    + by exists n, q, a.
    + apply IH; [done|]. intros p Hp. apply Hall. by right.
Qed.

Section SuccessLine.

Variable json_dumps : TestSet -> string.

(** X11: the line of success is printed only in a run that has sent the
    [SET] of the payload and got its reply: the payload key then holds
    the text that was sent. *)
Theorem success_line_only_after_payload_set w :
  (exists n s,
     SuccessfullyImported n s ∈ printed w (snd (main json_dumps w))) ->
  exists v,
    SET "sz:test_set:GSM8k" v ∈ sent_commands w (snd (main json_dumps w)) /\
    db (snd (main json_dumps w)) !! "sz:test_set:GSM8k" = Some (RString v).
Proof.
  destruct (run_cases w)
    as [[e He]|[(df & Hl & Hd)|[(df & Hl & Hu & Hi)|(df & Hl & Hu & Hi)]]].
  - rewrite (run_load_failure json_dumps w e He); simpl.
    rewrite printed_after. intros (n & s & Hin).
    by repeat (apply elem_of_cons in Hin as [?|Hin]; [done|]);
      apply elem_of_nil in Hin.
  - rewrite (run_ping_failure json_dumps w df Hl Hd).
    destruct (redis_link w); [done|..]; simpl; rewrite printed_after;
      intros (n & s & Hin);
      by repeat (apply elem_of_cons in Hin as [?|Hin]; [done|]);
      apply elem_of_nil in Hin.
  - rewrite (run_wrongtype json_dumps w df Hl Hu Hi); simpl.
    rewrite printed_after. intros (n & s & Hin).
    by repeat (apply elem_of_cons in Hin as [?|Hin]; [done|]);
      apply elem_of_nil in Hin.
  - rewrite (run_success json_dumps w df Hl Hu Hi); simpl.
    rewrite sent_after. intros _. eexists. split.
    + do 2 right. by left.
    + unfold imported. by rewrite lookup_insert_eq.
Qed.

End SuccessLine.

Lemma distinct_labels_give_distinct_ids_witness :
  NoDup (tc_id <$> [ Labelled.record 10 (Py.Str "Q0") (Py.Str "A0");
                     Labelled.record 30 (Py.Str "Q2") (Py.Str "A2") ]).
Proof.
  assert (Labelled.build_tests df_labels_gap =
          Returned [ Labelled.record 10 (Py.Str "Q0") (Py.Str "A0");
                     Labelled.record 30 (Py.Str "Q2") (Py.Str "A2") ]) as Hrun
    by (by vm_compute).
  apply (distinct_labels_give_distinct_ids df_labels_gap _ Hrun).
  apply (bool_decide_unpack _). by vm_compute.
Defined.

Lemma tests_follow_index_order_witness :
  exists ns,
    tc_id <$> [ Labelled.record 10 (Py.Str "Q0") (Py.Str "A0");
                Labelled.record 30 (Py.Str "Q2") (Py.Str "A2") ] =
      (fun n : Z => "GSM8k-T" +:+ pretty n) <$> ns /\
    (Labelled.IntLabel <$> ns) `sublist_of` Labelled.index df_labels_gap.
Proof.
  assert (Labelled.build_tests df_labels_gap =
          Returned [ Labelled.record 10 (Py.Str "Q0") (Py.Str "A0");
                     Labelled.record 30 (Py.Str "Q2") (Py.Str "A2") ]) as Hrun
    by (by vm_compute).
  exact (tests_follow_index_order df_labels_gap _ Hrun).
Defined.

Lemma full_frame_maps_row_by_row_witness :
  Forall2
    (fun p t =>
       exists n q a,
         p.1 = Labelled.IntLabel n /\
         Labelled.get p.2 "question" = Labelled.Val q /\
         Labelled.get p.2 "answer" = Labelled.Val a /\
         t = {| tc_id := "GSM8k-T" +:+ pretty n;
                tc_name := "GSM8k #" +:+ pretty (n + 1);
                prompt := q;
                expectedActivations := [];
                expectedResponse := a |})
    (Labelled.iterrows df_labels_10_20)
    [ Labelled.record 10 (Py.Str "Q0") (Py.Str "A0");
      Labelled.record 20 (Py.Str "Q1") (Py.Str "A1") ].
Proof.
  assert (Labelled.build_tests df_labels_10_20 =
          Returned [ Labelled.record 10 (Py.Str "Q0") (Py.Str "A0");
                     Labelled.record 20 (Py.Str "Q1") (Py.Str "A1") ]) as Hrun
    by (by vm_compute).
  apply (full_frame_maps_row_by_row df_labels_10_20 _ Hrun).
  intros p Hp. each_member Hp; reflexivity.
Defined.

Lemma success_line_only_after_payload_set_witness :
  exists v,
    SET "sz:test_set:GSM8k" v ∈
      sent_commands (used_world df_gap) (snd (main sample_dumps (used_world df_gap))) /\
    db (snd (main sample_dumps (used_world df_gap))) !! "sz:test_set:GSM8k" =
      Some (RString v).
Proof.
  apply (success_line_only_after_payload_set sample_dumps (used_world df_gap)).
  exists 2%nat, "GSM8k". apply (list_elem_of_lookup_2 _ 4%nat). by vm_compute.
Defined.
